(** * pkg/minikube/cluster: host lifecycle, clock synchronisation, gateway
      addresses

    A shallow embedding of [pkg/minikube/cluster/cluster.go].  The Go code is
    almost entirely calls to collaborators (the libmachine store, the driver,
    a remote shell, the logger, the clock, ...).  It is embedded as a program
    over an explicit signature of such calls ([call]); a run of a program
    against an oracle for the collaborators ([Env]) yields the chronological
    list of calls with their answers and the outcome, which is either a
    returned value or a Go runtime panic. *)

From Stdlib Require Import ZArith List String Ascii Bool Lia QArith Qabs DecimalString.
From Stdlib Require PrimFloat Uint63.
Import ListNotations.

Local Open Scope string_scope.
Local Open Scope list_scope.
Local Open Scope Z_scope.

Set Implicit Arguments.

(** ** Go standard library functions used by the package *)

Module Go.

(** The double quote character, for the few literals of the source that
    contain one. *)
Definition dq : string := String "034"%char EmptyString.

(** [fmt.Sprintf("%d", n)] *)
Definition itoa (n : Z) : string := NilZero.string_of_int (Z.to_int n).

(** [unicode.IsSpace], on the ASCII range: tab, newline, vertical tab, form
    feed, carriage return and space. *)
Definition isSpace (c : ascii) : bool :=
  let n := nat_of_ascii c in
  ((9 <=? n) && (n <=? 13))%nat || (n =? 32)%nat.

Fixpoint trimLeft (s : string) : string :=
  match s with
  | String c s' => if isSpace c then trimLeft s' else s
  | EmptyString => EmptyString
  end.

(** Drops the white space at the end: [trimRight s] is empty when [s] is all
    white space. *)
Fixpoint trimRight (s : string) : string :=
  match s with
  | EmptyString => EmptyString
  | String c s' =>
      match trimRight s' with
      | EmptyString => if isSpace c then EmptyString else String c EmptyString
      | t => String c t
      end
  end.

(** [strings.TrimSpace] *)
Definition TrimSpace (s : string) : string := trimRight (trimLeft s).

(** [strings.Split(s, sep)] for a non-empty separator: [skip] counts the
    characters of a separator just recognised that are still to be dropped,
    [acc] is the piece being collected. *)
Fixpoint splitFrom (sep s : string) (skip : nat) (acc : string) : list string :=
  match s with
  | EmptyString => [acc]
  | String c s' =>
      match skip with
      | S k => splitFrom sep s' k acc
      | O =>
          if prefix sep s
          then acc :: splitFrom sep s' (String.length sep - 1) EmptyString
          else splitFrom sep s' 0 (acc ++ String c EmptyString)
      end
  end.

Definition Split (s sep : string) : list string := splitFrom sep s 0 EmptyString.

Definition isDigit (c : ascii) : bool :=
  let n := nat_of_ascii c in ((48 <=? n) && (n <=? 57))%nat.

(** The value of a non-empty string of decimal digits. *)
Fixpoint digitsFrom (s : string) (acc : Z) : option Z :=
  match s with
  | EmptyString => Some acc
  | String c s' =>
      if isDigit c
      then digitsFrom s' (10 * acc + (Z.of_nat (nat_of_ascii c) - 48))
      else None
  end.

Definition digits (s : string) : option Z :=
  match s with
  | EmptyString => None
  | _ => digitsFrom s 0
  end.

(** What a [*strconv.NumError] says went wrong. *)
Inductive NumErr := ErrSyntax | ErrRange.

(** [strconv.ParseInt(s, 10, 64)]: an optional sign, then decimal digits;
    the value has to fit in 64 bits.  The value returned next to an error is
    the one Go returns (zero, or the nearest bound). *)
Definition ParseInt (s : string) : Z * option NumErr :=
  let '(neg, body) :=
    match s with
    | String "+" r => (false, r)
    | String "-" r => (true, r)
    | _ => (false, s)
    end in
  match s, digits body with
  | EmptyString, _ => (0, Some ErrSyntax)
  | _, None => (0, Some ErrSyntax)
  | _, Some un =>
      let cutoff := 2 ^ 63 in
      if negb neg && (cutoff <=? un) then (cutoff - 1, Some ErrRange)
      else if neg && (cutoff <? un) then (- cutoff, Some ErrRange)
      else ((if neg then - un else un), None)
  end.

(** *** Package time

    An instant is its number of nanoseconds since the Unix epoch and a
    duration is a number of nanoseconds, as [time.Duration] is. *)
Definition Time := Z.
Definition Duration := Z.

Definition Nanosecond : Duration := 1.
Definition Millisecond : Duration := 1000000.
Definition Second : Duration := 1000 * Millisecond.
Definition Minute : Duration := 60 * Second.

Definition minDuration : Duration := - 2 ^ 63.
Definition maxDuration : Duration := 2 ^ 63 - 1.

(** [time.Unix(sec, nsec)] *)
Definition Unix (sec nsec : Z) : Time := sec * Second + nsec.

(** [t.Unix()]: whole seconds since the epoch. *)
Definition Time_Unix (t : Time) : Z := t / Second.

(** [t.Sub(u)]: the difference, or the nearest bound of [Duration] when the
    difference does not fit. *)
Definition Sub (t u : Time) : Duration :=
  Z.max minDuration (Z.min maxDuration (t - u)).

(** [d.Seconds()].  Go splits the duration into whole seconds and the
    remaining nanoseconds and adds the two as [float64]; here the sum is the
    exact rational. *)
Definition Seconds (d : Duration) : Q :=
  let sec := Z.quot d Second in
  let nsec := Z.rem d Second in
  (inject_Z sec + inject_Z nsec / inject_Z 1000000000)%Q.

(** The same computation on binary64 numbers, for durations that fit in 63
    bits either side of zero. *)
Definition float64 (z : Z) : PrimFloat.float :=
  if z <? 0
  then PrimFloat.opp (PrimFloat.of_uint63 (Uint63.of_Z (- z)))
  else PrimFloat.of_uint63 (Uint63.of_Z z).

Definition Seconds64 (d : Duration) : PrimFloat.float :=
  let sec := Z.quot d Second in
  let nsec := Z.rem d Second in
  PrimFloat.add (float64 sec)
    (PrimFloat.div (float64 nsec) (float64 1000000000)).

(** *** Package net *)

(** A [net.IP] is a byte slice; [None] is the nil slice. *)
Definition IP := option (list Z).

Definition v4InV6Prefix : list Z := [0; 0; 0; 0; 0; 0; 0; 0; 0; 0; 255; 255].

(** [net.IPv4(a, b, c, d)]: the 16-byte form of an IPv4 address. *)
Definition IPv4 (a b c d : Z) : IP := Some (v4InV6Prefix ++ [a; b; c; d]).

(** [ip.To4()] *)
Definition To4 (ip : IP) : IP :=
  match ip with
  | Some [a; b; c; d] => Some [a; b; c; d]
  | Some [0; 0; 0; 0; 0; 0; 0; 0; 0; 0; 255; 255; a; b; c; d] => Some [a; b; c; d]
  | _ => None
  end.

(** One field of a dotted-decimal address: decimal digits, no leading zero,
    at most 255. *)
Definition v4field (s : string) : option Z :=
  match s, digits s with
  | String "0" (String _ _), _ => None
  | _, Some n => if n <=? 255 then Some n else None
  | _, None => None
  end.

Definition parseIPv4 (s : string) : IP :=
  match map v4field (Split s ".") with
  | [Some a; Some b; Some c; Some d] => IPv4 a b c d
  | _ => None
  end.

(** The first of ['.'] and [':'] in [s] decides how [net.ParseIP] reads it. *)
Fixpoint firstSep (s : string) : option ascii :=
  match s with
  | EmptyString => None
  | String c s' =>
      if (c =? ".")%char || (c =? ":")%char then Some c else firstSep s'
  end.

(** [net.ParseIP]; the reading of the colon-separated forms is left to
    [parseIPv6]. *)
Definition ParseIP (parseIPv6 : string -> IP) (s : string) : IP :=
  match firstSep s with
  | Some "."%char => parseIPv4 s
  | Some _ => parseIPv6 s
  | None => None
  end.

End Go.


(** ** Data model *)

(** libmachine's [state.State] and its [String] method. *)
Module state.

Inductive State :=
  None | Running | Paused | Saved | Stopped | Stopping | Starting | Error | Timeout.

Definition String (s : State) : string :=
  match s with
  | None => ""
  | Running => "Running"
  | Paused => "Paused"
  | Saved => "Saved"
  | Stopped => "Stopped"
  | Stopping => "Stopping"
  | Starting => "Starting"
  | Error => "Error"
  | Timeout => "Timeout"
  end.

Definition eqb (a b : State) : bool :=
  match a, b with
  | None, None | Running, Running | Paused, Paused | Saved, Saved
  | Stopped, Stopped | Stopping, Stopping | Starting, Starting
  | Error, Error | Timeout, Timeout => true
  | _, _ => false
  end.

End state.

(** Go errors.  [Opaque] stands for an error made by a collaborator; the
    other constructors are the errors this package and its callers tell
    apart. *)
Inductive err : Type :=
| Opaque (msg : string)
| New (msg : string)
| Wrap (cause : err) (msg : string)
| NumError (func num : string) (what : Go.NumErr)
| RetriableError (Err : err)
| ErrHostDoesNotExist (Name : string)
| ErrHostAlreadyInState (Name : string) (State : state.State).

(** The interface type [error]; [None] is [nil]. *)
Definition error := option err.

Definition nonnil {A} (p : option A) : bool :=
  match p with Some _ => true | None => false end.

(** [errors.Wrap] and [errors.Wrapf] of github.com/pkg/errors: wrapping
    [nil] gives [nil]. *)
Definition errors_Wrap (e : error) (msg : string) : error :=
  option_map (fun c => Wrap c msg) e.

Definition errors_New (msg : string) : error := Some (New msg).

Definition strconv_ParseInt (s : string) : Z * error :=
  let '(n, e) := Go.ParseInt s in (n, option_map (NumError "ParseInt" s) e).

Module config.
Record MachineConfig := {
  Name : string;
  VMDriver : string;
  CPUs : Z;
  Memory : Z;
  DiskSize : Z;
  DockerEnv : list string;
  InsecureRegistry : list string;
  RegistryMirror : list string;
  DockerOpt : list string
}.
End config.

Module engine.
Record Options := {
  Env : list string;
  InsecureRegistry : list string;
  RegistryMirror : list string;
  ArbitraryFlags : list string;
  InstallURL : string
}.
End engine.

Module auth.
Record Options := { CertDir : string; StorePath : string }.
End auth.

Module swarm.
Record Options := { IsSwarm : bool }.
End swarm.

Module drivers.
(** What this package reads of a [drivers.Driver]: the answer of its
    [DriverName()] method and the machine it drives.  Its other methods are
    calls. *)
Record Driver := { DriverName : string; MachineName : string }.
End drivers.

Module host.
Record Options := {
  EngineOptions : engine.Options;
  SwarmOptions : swarm.Options;
  AuthOptions : auth.Options
}.

(** A [host.Host].  A [*host.Host] that may be nil is an [option Host]. *)
Record Host := {
  Name : string;
  DriverName : string;
  Driver : drivers.Driver;
  RawDriver : string;
  HostOptions : Options
}.
End host.

Module mutex.
Record Spec := { Name : string; Delay : Go.Duration; Timeout : Go.Duration }.
Definition Releaser := string.
End mutex.

Module provision.
Record Provisioner := { String : string }.
Record OsRelease := { PrettyName : string }.
End provision.

Module command.
(** The implementations of [command.Runner] this package picks from. *)
Inductive Runner :=
| FakeCommandRunner
| ExecRunner
| KICRunner (name ociBin : string)
| SSHRunner (client : string).
End command.

Module registry.
(** A [registry.DriverDef]: whether it is the empty definition, and its
    configurator. *)
Record DriverDef := { Empty : bool; Config : config.MachineConfig -> string }.
End registry.

Module net.
Definition Interface := string.
(** The dynamic types of a [net.Addr]. *)
Inductive Addr :=
| IPNet (IP : Go.IP) (Mask : list Z)
| IPAddr (IP : Go.IP).
End net.

(** ** Collaborators *)

Inductive severity := Info | Warning | Error.

(** An argument of a log or notification format. [LVal] is a value printed
    with [%v] whose fields are not modelled, named by its source
    expression. *)
Inductive logarg :=
| LStr (s : string)
| LInt (n : Z)
| LErr (e : error)
| LDur (d : Go.Duration)
| LState (s : state.State)
| LVal (expr : string).

(** The calls this package makes, indexed by the type of their answer. *)
Inductive call : Type -> Type :=
(* glog, out *)
| Glog (sev : severity) (format : string) (args : list logarg) : call unit
| OutT (style format : string) (v : list (string * logarg)) : call unit
| OutWarningT (format : string) (v : list (string * logarg)) : call unit
(* time, viper *)
| TimeNow : call Go.Time
| TimeSleep (d : Go.Duration) : call unit
| ViperGetString (key : string) : call string
| ViperGetBool (key : string) : call bool
(* juju/mutex *)
| MutexAcquire (spec : mutex.Spec) : call (mutex.Releaser * error)
| Release (r : mutex.Releaser) : call unit
(* libmachine.API *)
| ApiExists (name : string) : call (bool * error)
| ApiLoad (name : string) : call (option host.Host * error)
| ApiNewHost (driverName rawDriver : string) : call (option host.Host * error)
| ApiCreate (h : host.Host) : call error
| ApiSave (h : host.Host) : call error
| ApiRemove (name : string) : call error
(* drivers.Driver *)
| DriverGetState (d : drivers.Driver) : call (state.State * error)
| DriverStart (d : drivers.Driver) : call error
| DriverRemove (d : drivers.Driver) : call error
| DriverGetIP (d : drivers.Driver) : call (string * error)
(* host.Host *)
| HostStop (h : host.Host) : call error
| HostConfigureAuth (h : host.Host) : call error
| HostRunSSHCommand (h : host.Host) (cmd : string) : call (string * error)
(* provision *)
| DetectProvisioner (d : drivers.Driver) : call (provision.Provisioner * error)
| Provision (p : provision.Provisioner) (s : swarm.Options) (a : auth.Options)
    (e : engine.Options) : call error
| GetOsReleaseInfo (p : provision.Provisioner) : call (provision.OsRelease * error)
| NewOsRelease (contents : string) : call (provision.OsRelease * error)
(* sshutil, command.Runner, os/exec, io/ioutil *)
| NewSSHClient (d : drivers.Driver) : call (string * error)
| RunCmd (r : command.Runner) (argv : list string) : call error
| ExecRun (argv : list string) : call error
| ExecOutput (argv : list string) : call (string * error)
| ReadFile (path : string) : call (string * error)
(* registry, encoding/json, driver *)
| RegistryDriver (name : string) : call registry.DriverDef
| JsonMarshal (dd : string) : call (string * error)
| VBoxManagePath : call string
(* gopsutil *)
| CpuInfo : call (Z * error)
| MemVirtualMemory : call (Z * error)
| DiskUsage (path : string) : call (Z * error)
(* net *)
| InterfaceByName (name : string) : call (option net.Interface * error)
| InterfaceAddrs (i : option net.Interface) : call (list net.Addr * error).

(** A call together with its answer. *)
Inductive event : Type :=
| Ev : forall T : Type, call T -> T -> event.

Definition trace := list event.

(** The collaborators: the answer to a call, given everything that happened
    before it. *)
Definition Env := forall T : Type, trace -> call T -> T.

(** ** Programs *)

Inductive prog (A : Type) : Type :=
| Ret (a : A)
| Panic
| Do (T : Type) (c : call T) (k : T -> prog A).

Arguments Ret {A} a.
Arguments Panic {A}.
Arguments Do {A T} c k.

Fixpoint bind {A B : Type} (p : prog A) (k : A -> prog B) : prog B :=
  match p with
  | Ret a => k a
  | Panic => Panic
  | Do c f => Do c (fun r => bind (f r) k)
  end.

Definition perform {T : Type} (c : call T) : prog T := Do c Ret.

(** [defer d; body]: [d] runs when [body] has returned or panicked, and the
    outcome of [body] stands. *)
Fixpoint defer {A : Type} (d : prog unit) (body : prog A) : prog A :=
  match body with
  | Ret a => bind d (fun _ => Ret a)
  | Panic => bind d (fun _ => Panic)
  | Do c f => Do c (fun r => defer d (f r))
  end.

(** Dereferencing a pointer that may be nil. *)
Definition deref {A : Type} (p : option A) : prog A :=
  match p with Some a => Ret a | None => Panic end.

(** Indexing a slice. *)
Definition index {A : Type} (l : list A) (i : nat) : prog A :=
  match nth_error l i with Some a => Ret a | None => Panic end.

Declare Scope prog_scope.
Delimit Scope prog_scope with prog.
Bind Scope prog_scope with prog.

Notation "x <- p ;; k" := (bind p (fun x => k))
  (at level 61, p at next level, right associativity) : prog_scope.
Notation "' pat <- p ;; k" := (bind p (fun x => match x with pat => k end))
  (at level 61, pat pattern, p at next level, right associativity) : prog_scope.
Notation "p ;; k" := (bind p (fun _ => k))
  (at level 61, right associativity) : prog_scope.

Local Open Scope prog_scope.

Inductive outcome (A : Type) : Type :=
| Returned (a : A)
| Panicked.

Arguments Returned {A} a.
Arguments Panicked {A}.

(** A run of [p] after the history [hist]: the calls it made, in order, with
    their answers, and how it ended. *)
Fixpoint exec {A : Type} (env : Env) (p : prog A) (hist : trace) : trace * outcome A :=
  match p with
  | Ret a => ([], Returned a)
  | Panic => ([], Panicked)
  | Do c k =>
      let r := env _ hist c in
      let rest := exec env (k r) (hist ++ [Ev c r]) in
      (Ev c r :: fst rest, snd rest)
  end.

Definition events {A : Type} (env : Env) (p : prog A) (hist : trace) : trace :=
  fst (exec env p hist).

Definition result {A : Type} (env : Env) (p : prog A) (hist : trace) : outcome A :=
  snd (exec env p hist).

(** [avoids bad p]: [p] makes no call that [bad] singles out, whatever the
    collaborators answer. *)
Inductive avoids (bad : event -> bool) {A : Type} : prog A -> Prop :=
| avoids_Ret (a : A) : avoids bad (Ret a)
| avoids_Panic : avoids bad Panic
| avoids_Do (T : Type) (c : call T) (k : T -> prog A) :
    (forall r, bad (Ev c r) = false) ->
    (forall r, avoids bad (k r)) ->
    avoids bad (Do c k).

(** ** Constants and pure functions of the packages this one imports

    The names of the driver kinds, the guest paths, the storage root and the
    like are declared elsewhere; the code below is embedded for any value of
    them. *)
Class Consts := {
  (* k8s.io/minikube/pkg/minikube/driver *)
  Mock : string;
  Docker : string;
  KVM2 : string;
  VirtualBox : string;
  HyperKit : string;
  VMware : string;
  VMwareFusion : string;
  HyperV : string;
  BareMetal : string -> bool;
  IsKIC : string -> bool;
  (* k8s.io/minikube/pkg/minikube/constants, config *)
  DefaultMachineName : string;
  DefaultServiceCIDR : string;
  MachineProfile : string;
  ShowDriverDeprecationNotification : string;
  (* k8s.io/minikube/pkg/minikube/vmpath *)
  GuestAddonsDir : string;
  GuestManifestsDir : string;
  GuestEphemeralDir : string;
  GuestPersistentDir : string;
  GuestCertsDir : string;
  (* k8s.io/minikube/pkg/minikube/localpath: MiniPath() *)
  MiniPath : string;
  (* k8s.io/minikube/pkg/util/lock *)
  PathMutexSpec : string -> mutex.Spec;
  (* k8s.io/minikube/pkg/drivers/kic/oci *)
  oci_Docker : string;
  (* github.com/docker/machine/libmachine/drivers *)
  DefaultEngineInstallURL : string;
  (* path, path/filepath, regexp, net *)
  path_Join : list string -> string;
  filepath_Join : list string -> string;
  FindStringSubmatch : string -> string -> list string;
  parseIPv6 : string -> Go.IP
}.

Section Cluster.

Context {K : Consts}.

Definition glog_Infof (format : string) (args : list logarg) : prog unit :=
  perform (Glog Info format args).
Definition glog_Warningf (format : string) (args : list logarg) : prog unit :=
  perform (Glog Warning format args).
Definition glog_Errorf (format : string) (args : list logarg) : prog unit :=
  perform (Glog Error format args).
Definition out_T (style format : string) (v : list (string * logarg)) : prog unit :=
  perform (OutT style format v).
Definition out_WarningT (format : string) (v : list (string * logarg)) : prog unit :=
  perform (OutWarningT format v).
Definition time_Now : prog Go.Time := perform TimeNow.

(** [time.Since(start)] *)
Definition time_Since (start : Go.Time) : prog Go.Duration :=
  now <- time_Now ;; Ret (Go.Sub now start).

Definition net_ParseIP (s : string) : Go.IP := Go.ParseIP parseIPv6 s.

(** The maximum the guest VM clock is allowed to be ahead and behind. *)
Definition maxClockDesyncSeconds : Q := 2.1%Q.

(** [requiredDirectories] are directories to create on the host during
    setup. *)
Definition requiredDirectories : list string :=
  [ GuestAddonsDir;
    GuestManifestsDir;
    GuestEphemeralDir;
    GuestPersistentDir;
    GuestCertsDir;
    path_Join [GuestPersistentDir; "images"];
    path_Join [GuestPersistentDir; "binaries"] ].

(** [commandRunner] returns best available command runner for this host. *)
Definition commandRunner (h : host.Host) : prog (option command.Runner * error) :=
  if (host.DriverName h =? Mock)%string then
    glog_Errorf "commandRunner: returning unconfigured FakeCommandRunner, commands will fail!" [] ;;
    Ret (Some command.FakeCommandRunner, None)
  else if BareMetal (drivers.DriverName (host.Driver h)) then
    Ret (Some command.ExecRunner, None)
  else if (drivers.DriverName (host.Driver h) =? Docker)%string then
    Ret (Some (command.KICRunner (host.Name h) "docker"), None)
  else
    '(client, err) <- perform (NewSSHClient (host.Driver h)) ;;
    if nonnil err then
      Ret (None, errors_Wrap err "getting ssh client for bootstrapper")
    else
      Ret (Some (command.SSHRunner client), None).

(** [createRequiredDirectories] creates directories expected by minikube to
    exist. *)
Definition createRequiredDirectories (h : host.Host) : prog error :=
  if (host.DriverName h =? Mock)%string then
    glog_Infof "skipping createRequiredDirectories" [] ;;
    Ret None
  else
    glog_Infof "creating required directories: %v" [LVal "requiredDirectories"] ;;
    '(r, err) <- commandRunner h ;;
    if nonnil err then Ret (errors_Wrap err "command runner")
    else
      let args := ["mkdir"; "-p"] ++ requiredDirectories in
      r <- deref r ;;
      err <- perform (RunCmd r ("sudo" :: args)) ;;
      if nonnil err then
        Ret (errors_Wrap err ("sudo mkdir (" ++ host.DriverName h ++ ")"))
      else Ret None.

(** [guestClockDelta] returns the approximate difference between the host
    and guest system clock. *)
Definition guestClockDelta (h : host.Host) (local : Go.Time) : prog (Go.Duration * error) :=
  '(out, err) <- perform (HostRunSSHCommand h "date +%s.%N") ;;
  if nonnil err then Ret (0, errors_Wrap err "get clock")
  else
    glog_Infof "guest clock: %s" [LStr out] ;;
    let ns := Go.Split (Go.TrimSpace out) "." in
    ns0 <- index ns 0 ;;
    let '(secs, err) := strconv_ParseInt (Go.TrimSpace ns0) in
    if nonnil err then Ret (0, errors_Wrap err "atoi")
    else
      ns1 <- index ns 1 ;;
      let '(nsecs, err) := strconv_ParseInt (Go.TrimSpace ns1) in
      if nonnil err then Ret (0, errors_Wrap err "atoi")
      else
        let remote := Go.Unix secs nsecs in
        let d := Go.Sub remote local in
        glog_Infof "Guest: %s Remote: %s (delta=%s)" [LVal "remote"; LVal "local"; LDur d] ;;
        Ret (d, None).

(** [adjustGuestClock] adjusts the guest system clock to be nearer to the
    host system clock. *)
Definition adjustGuestClock (h : host.Host) (t : Go.Time) : prog error :=
  '(out, err) <- perform (HostRunSSHCommand h ("sudo date -s @" ++ Go.itoa (Go.Time_Unix t))) ;;
  glog_Infof "clock set: %s (err=%v)" [LStr out; LErr err] ;;
  Ret err.

(** [math.Abs(d.Seconds()) < maxClockDesyncSeconds] *)
Definition withinTolerance (d : Go.Duration) : bool :=
  negb (Qle_bool maxClockDesyncSeconds (Qabs (Go.Seconds d))).

(** [ensureSyncedGuestClock] ensures that the guest system clock is
    relatively in-sync. *)
Definition ensureSyncedGuestClock (h : host.Host) : prog error :=
  now <- time_Now ;;
  '(d, err) <- guestClockDelta h now ;;
  if nonnil err then
    glog_Warningf "Unable to measure system clock delta: %v" [LErr err] ;;
    Ret None
  else if withinTolerance d then
    glog_Infof "guest clock delta is within tolerance: %s" [LDur d] ;;
    Ret None
  else
    now <- time_Now ;;
    err <- adjustGuestClock h now ;;
    if nonnil err then Ret (errors_Wrap err "adjusting system clock")
    else Ret None.

Definition engineOptions (cfg : config.MachineConfig) : engine.Options :=
  {| engine.Env := config.DockerEnv cfg;
     engine.InsecureRegistry := [DefaultServiceCIDR] ++ config.InsecureRegistry cfg;
     engine.RegistryMirror := config.RegistryMirror cfg;
     engine.ArbitraryFlags := config.DockerOpt cfg;
     engine.InstallURL := DefaultEngineInstallURL |}.

(** The assignment [h.HostOptions.EngineOptions.Env = env]. *)
Definition set_EngineEnv (h : host.Host) (env : list string) : host.Host :=
  let o := host.HostOptions h in
  let eo := host.EngineOptions o in
  {| host.Name := host.Name h;
     host.DriverName := host.DriverName h;
     host.Driver := host.Driver h;
     host.RawDriver := host.RawDriver h;
     host.HostOptions :=
       {| host.EngineOptions :=
            {| engine.Env := env;
               engine.InsecureRegistry := engine.InsecureRegistry eo;
               engine.RegistryMirror := engine.RegistryMirror eo;
               engine.ArbitraryFlags := engine.ArbitraryFlags eo;
               engine.InstallURL := engine.InstallURL eo |};
          host.SwarmOptions := host.SwarmOptions o;
          host.AuthOptions := host.AuthOptions o |} |}.

(** [configureHost] handles any post-powerup configuration required.  The
    host is handed back with the error, since the code writes to it. *)
Definition configureHost (h : host.Host) (e : engine.Options) : prog (host.Host * error) :=
  start <- time_Now ;;
  glog_Infof "configureHost: %+v" [LVal "h.Driver"] ;;
  defer (d <- time_Since start ;;
         glog_Infof "configureHost completed within %s" [LDur d])
    (err <- createRequiredDirectories h ;;
     let _ := (if nonnil err then errors_Wrap err "required directories" else None) in
     let rest (h : host.Host) : prog (host.Host * error) :=
       if BareMetal (drivers.DriverName (host.Driver h)) then
         glog_Infof "%s is a local driver, skipping auth/time setup"
           [LStr (drivers.DriverName (host.Driver h))] ;;
         Ret (h, None)
       else
         glog_Infof "Configuring auth for driver %s ..."
           [LStr (drivers.DriverName (host.Driver h))] ;;
         err <- perform (HostConfigureAuth h) ;;
         match err with
         | Some cause =>
             Ret (h, Some (RetriableError (Wrap cause "Error configuring auth on host")))
         | None =>
             err <- ensureSyncedGuestClock h ;;
             Ret (h, err)
         end in
     if (0 <? Z.of_nat (List.length (engine.Env e))) then
       let h := set_EngineEnv h (engine.Env e) in
       glog_Infof "Detecting provisioner ..." [] ;;
       '(provisioner, err) <- perform (DetectProvisioner (host.Driver h)) ;;
       if nonnil err then Ret (h, errors_Wrap err "detecting provisioner")
       else
         glog_Infof "Provisioning with %s: %+v"
           [LStr (provision.String provisioner); LVal "*h.HostOptions"] ;;
         err <- perform (Provision provisioner
                           (host.SwarmOptions (host.HostOptions h))
                           (host.AuthOptions (host.HostOptions h))
                           (host.EngineOptions (host.HostOptions h))) ;;
         if nonnil err then Ret (h, errors_Wrap err "provision")
         else rest h
     else rest h).

(** [trySSHPowerOff] runs the poweroff command on the guest VM to speed up
    deletion. *)
Definition trySSHPowerOff (h : host.Host) : prog error :=
  '(s, err) <- perform (DriverGetState (host.Driver h)) ;;
  if nonnil err then
    glog_Warningf "unable to get state: %v" [LErr err] ;;
    Ret err
  else if negb (state.eqb s state.Running) then
    glog_Infof "host is in state %s" [LState s] ;;
    Ret None
  else
    out_T "Shutdown"
      ("Powering off " ++ Go.dq ++ "{{.profile_name}}" ++ Go.dq ++ " via SSH ...")
      [("profile_name", LStr (host.Name h))] ;;
    '(out, err) <- perform (HostRunSSHCommand h "sudo poweroff") ;;
    (* poweroff always results in an error, since the host disconnects. *)
    glog_Infof "poweroff result: out=%s, err=%v" [LStr out; LErr err] ;;
    Ret None.

(** [StopHost] stops the host VM, saving state to disk. *)
Definition StopHost : prog error :=
  glog_Infof "Stopping host ..." [] ;;
  start <- time_Now ;;
  defer (d <- time_Since start ;;
         glog_Infof "Stopped host within %s" [LDur d])
    (machineName <- perform (ViperGetString MachineProfile) ;;
     '(host, err) <- perform (ApiLoad machineName) ;;
     if nonnil err then Ret (errors_Wrap err "load")
     else
       host <- deref host ;;
       out_T "Stopping"
         ("Stopping " ++ Go.dq ++ "{{.profile_name}}" ++ Go.dq ++ " in {{.driver_name}} ...")
         [("profile_name", LStr machineName); ("driver_name", LStr (host.DriverName host))] ;;
       let stop : prog error :=
         err <- perform (HostStop host) ;;
         match err with
         | Some cause =>
             glog_Infof "host.Stop failed: %v" [LErr err] ;;
             match cause with
             | ErrHostAlreadyInState _ state.Stopped => Ret None
             | _ => Ret (Some (RetriableError (Wrap cause ("Stop: " ++ machineName))))
             end
         | None => Ret None
         end in
       if (host.DriverName host =? HyperV)%string then
         glog_Infof "As there are issues with stopping Hyper-V VMs using API, trying to shut down using SSH" [] ;;
         err <- trySSHPowerOff host ;;
         if nonnil err then Ret (errors_Wrap err "ssh power off")
         else stop
       else stop).

(** [deleteOrphanedKIC] attempts to delete an orphaned docker instance. *)
Definition deleteOrphanedKIC (name : string) : prog unit :=
  err <- perform (ExecRun [oci_Docker; "rm"; "-f"; "-v"; name]) ;;
  if nonnil err then Ret tt
  else glog_Infof "Found stale kic container and successfully cleaned it up!" [].

(** [GetHostStatus] gets the status of the host VM. *)
Definition GetHostStatus (machineName : string) : prog (string * error) :=
  '(exists_, err) <- perform (ApiExists machineName) ;;
  if nonnil err then Ret ("", errors_Wrap err (machineName ++ " exists"))
  else if negb exists_ then Ret (state.String state.None, None)
  else
    '(host, err) <- perform (ApiLoad machineName) ;;
    if nonnil err then Ret ("", errors_Wrap err "load")
    else
      host <- deref host ;;
      '(s, err) <- perform (DriverGetState (host.Driver host)) ;;
      if nonnil err then Ret ("", errors_Wrap err "state")
      else Ret (state.String s, None).

(** [DeleteHost] deletes the host VM. *)
Definition DeleteHost (machineName : string) : prog error :=
  '(host, err) <- perform (ApiLoad machineName) ;;
  (if nonnil err && negb (nonnil host) then
     deleteOrphanedKIC machineName
     (* keep going even if minikube does not know about the host *)
   else Ret tt) ;;
  (* Get the status of the host. Ensure that it exists before proceeding ahead. *)
  '(status, err) <- GetHostStatus machineName ;;
  (if nonnil err then
     (* Warn, but proceed *)
     out_WarningT "Unable to get the status of the {{.name}} cluster." [("name", LStr machineName)]
   else Ret tt) ;;
  if (status =? state.String state.None)%string then
    Ret (Some (ErrHostDoesNotExist machineName))
  else
    host <- deref host ;;
    (if (drivers.DriverName (host.Driver host) =? HyperV)%string then
       err <- trySSHPowerOff host ;;
       (if nonnil err then
          glog_Infof "Unable to power off minikube because the host was not found." []
        else Ret tt) ;;
       out_T "DeletingHost" "Successfully powered off Hyper-V. minikube driver -- {{.driver}}"
         [("driver", LStr (drivers.DriverName (host.Driver host)))]
     else Ret tt) ;;
    out_T "DeletingHost"
      ("Deleting " ++ Go.dq ++ "{{.profile_name}}" ++ Go.dq ++ " in {{.driver_name}} ...")
      [("profile_name", LStr machineName); ("driver_name", LStr (host.DriverName host))] ;;
    err <- perform (DriverRemove (host.Driver host)) ;;
    if nonnil err then Ret (errors_Wrap err "host remove")
    else
      err <- perform (ApiRemove machineName) ;;
      if nonnil err then Ret (errors_Wrap err "api remove")
      else Ret None.

Record hostInfo := { Memory : Z; CPUs : Z; DiskSize : Z }.

Definition megs (bytes : Z) : Z := bytes / 1024 / 1024.

Definition getHostInfo : prog (option hostInfo * error) :=
  '(i, err) <- perform CpuInfo ;;
  if nonnil err then
    glog_Warningf "Unable to get CPU info: %v" [LErr err] ;;
    Ret (None, err)
  else
    '(v, err) <- perform MemVirtualMemory ;;
    if nonnil err then
      glog_Warningf "Unable to get mem info: %v" [LErr err] ;;
      Ret (None, err)
    else
      '(d, err) <- perform (DiskUsage "/") ;;
      if nonnil err then
        glog_Warningf "Unable to get disk info: %v" [LErr err] ;;
        Ret (None, err)
      else
        Ret (Some {| CPUs := i; Memory := megs v; DiskSize := megs d |}, None).

(** [showLocalOsRelease] shows systemd information about the current linux
    distribution, on the local host. *)
Definition showLocalOsRelease : prog unit :=
  '(osReleaseOut, err) <- perform (ReadFile "/etc/os-release") ;;
  if nonnil err then glog_Errorf "ReadFile: %v" [LErr err]
  else
    '(osReleaseInfo, err) <- perform (NewOsRelease osReleaseOut) ;;
    if nonnil err then glog_Errorf "NewOsRelease: %v" [LErr err]
    else
      out_T "Provisioner" "OS release is {{.pretty_name}}"
        [("pretty_name", LStr (provision.PrettyName osReleaseInfo))].

(** [showRemoteOsRelease] shows systemd information about the current linux
    distribution, on the remote VM. *)
Definition showRemoteOsRelease (driver : drivers.Driver) : prog unit :=
  '(provisioner, err) <- perform (DetectProvisioner driver) ;;
  if nonnil err then glog_Errorf "DetectProvisioner: %v" [LErr err]
  else
    '(osReleaseInfo, err) <- perform (GetOsReleaseInfo provisioner) ;;
    if nonnil err then glog_Errorf "GetOsReleaseInfo: %v" [LErr err]
    else glog_Infof "Provisioned with %s" [LStr (provision.PrettyName osReleaseInfo)].

(** [showHostInfo] shows host information. *)
Definition showHostInfo (cfg : config.MachineConfig) : prog unit :=
  if BareMetal (config.VMDriver cfg) then
    '(info, err) <- getHostInfo ;;
    if nonnil err then Ret tt
    else
      info <- deref info ;;
      out_T "StartingNone"
        "Running on localhost (CPUs={{.number_of_cpus}}, Memory={{.memory_size}}MB, Disk={{.disk_size}}MB) ..."
        [("number_of_cpus", LInt (CPUs info)); ("memory_size", LInt (Memory info));
         ("disk_size", LInt (DiskSize info))]
  else if IsKIC (config.VMDriver cfg) then
    '(info, err) <- getHostInfo ;;
    if nonnil err then Ret tt
    else
      info <- deref info ;;
      out_T "StartingVM"
        "Creating Kubernetes in {{.driver_name}} container with (CPUs={{.number_of_cpus}}), Memory={{.memory_size}}MB ({{.host_memory_size}}MB available) ..."
        [("driver_name", LStr (config.VMDriver cfg)); ("number_of_cpus", LInt (config.CPUs cfg));
         ("number_of_host_cpus", LInt (CPUs info)); ("memory_size", LInt (config.Memory cfg));
         ("host_memory_size", LInt (Memory info))]
  else
    out_T "StartingVM"
      "Creating {{.driver_name}} VM (CPUs={{.number_of_cpus}}, Memory={{.memory_size}}MB, Disk={{.disk_size}}MB) ..."
      [("driver_name", LStr (config.VMDriver cfg)); ("number_of_cpus", LInt (config.CPUs cfg));
       ("memory_size", LInt (config.Memory cfg)); ("disk_size", LInt (config.DiskSize cfg))].

Definition nl : string := String "010"%char EmptyString.
Definition tab : string := String "009"%char EmptyString.

(** The assignments of [createHost] to [h.HostOptions]: the certificate
    directory, the store path and the engine options. *)
Definition set_HostOptions (h : host.Host) (cfg : config.MachineConfig) : host.Host :=
  {| host.Name := host.Name h;
     host.DriverName := host.DriverName h;
     host.Driver := host.Driver h;
     host.RawDriver := host.RawDriver h;
     host.HostOptions :=
       {| host.EngineOptions := engineOptions cfg;
          host.SwarmOptions := host.SwarmOptions (host.HostOptions h);
          host.AuthOptions := {| auth.CertDir := MiniPath; auth.StorePath := MiniPath |} |} |}.

Definition createHost (cfg : config.MachineConfig) : prog (option host.Host * error) :=
  (if (config.VMDriver cfg =? VMwareFusion)%string then
     show <- perform (ViperGetBool ShowDriverDeprecationNotification) ;;
     if (show : bool) then
       out_WarningT
         ("The vmwarefusion driver is deprecated and support for it will be removed in a future release."
          ++ nl ++ tab ++ tab ++ tab
          ++ "Please consider switching to the new vmware unified driver, which is intended to replace the vmwarefusion driver."
          ++ nl ++ tab ++ tab ++ tab
          ++ "See https://minikube.sigs.k8s.io/docs/reference/drivers/vmware/ for more information."
          ++ nl ++ tab ++ tab ++ tab
          ++ "To disable this message, run [minikube config set ShowDriverDeprecationNotification false]")
         []
     else Ret tt
   else Ret tt) ;;
  showHostInfo cfg ;;
  def <- perform (RegistryDriver (config.VMDriver cfg)) ;;
  if registry.Empty def then
    Ret (None, errors_New ("unsupported/missing driver: " ++ config.VMDriver cfg))
  else
    let dd := registry.Config def cfg in
    '(data, err) <- perform (JsonMarshal dd) ;;
    if nonnil err then Ret (None, errors_Wrap err "marshal")
    else
      '(h, err) <- perform (ApiNewHost (config.VMDriver cfg) data) ;;
      if nonnil err then Ret (None, errors_Wrap err "new host")
      else
        h <- deref h ;;
        let h := set_HostOptions h cfg in
        err <- perform (ApiCreate h) ;;
        if nonnil err then
          (* Wait for all the logs to reach the client *)
          perform (TimeSleep (2 * Go.Second)) ;;
          Ret (None, errors_Wrap err "create")
        else
          err <- createRequiredDirectories h ;;
          let _ := (if nonnil err then errors_Wrap err "required directories" else None) in
          let save : prog (option host.Host * error) :=
            err <- perform (ApiSave h) ;;
            if nonnil err then Ret (None, errors_Wrap err "save")
            else Ret (Some h, None) in
          if BareMetal (config.VMDriver cfg) then
            showLocalOsRelease ;;
            save
          else if negb (BareMetal (config.VMDriver cfg)) && negb (IsKIC (config.VMDriver cfg)) then
            showRemoteOsRelease (host.Driver h) ;;
            (* Ensure that even new VM's have proper time synchronization up front *)
            err <- ensureSyncedGuestClock h ;;
            if nonnil err then Ret (Some h, err)
            else save
          else save.

(** [acquireMachinesLock] protects against code that is not parallel-safe
    (libmachine, cert setup). *)
Definition acquireMachinesLock (name : string) : prog (mutex.Releaser * error) :=
  let spec := PathMutexSpec (filepath_Join [MiniPath; "machines"]) in
  (* NOTE: Provisioning generally completes within 60 seconds *)
  let spec := {| mutex.Name := mutex.Name spec;
                 mutex.Delay := mutex.Delay spec;
                 mutex.Timeout := 10 * Go.Minute |} in
  glog_Infof "acquiring machines lock for %s: %+v" [LStr name; LVal "spec"] ;;
  start <- time_Now ;;
  '(r, err) <- perform (MutexAcquire spec) ;;
  (if nonnil err then Ret tt
   else
     d <- time_Since start ;;
     glog_Infof "acquired machines lock for %q in %s" [LStr name; LDur d]) ;;
  Ret (r, err).

(** [StartHost] starts a host VM. *)
Definition StartHost (cfg : config.MachineConfig) : prog (option host.Host * error) :=
  (* Prevent machine-driver boot races, as well as our own certificate race *)
  '(releaser, err) <- acquireMachinesLock (config.Name cfg) ;;
  if nonnil err then Ret (None, errors_Wrap err "boot lock")
  else
    start <- time_Now ;;
    defer (d <- time_Since start ;;
           glog_Infof "releasing machines lock for %q, held for %s"
             [LStr (config.Name cfg); LDur d] ;;
           perform (Release releaser))
      ('(exists_, err) <- perform (ApiExists (config.Name cfg)) ;;
       if nonnil err then Ret (None, errors_Wrap err ("exists: " ++ config.Name cfg))
       else if negb exists_ then
         glog_Infof "Machine does not exist... provisioning new machine" [] ;;
         glog_Infof "Provisioning machine with config: %+v" [LVal "cfg"] ;;
         createHost cfg
       else
         glog_Infof "Skipping create...Using existing machine configuration" [] ;;
         '(h, err) <- perform (ApiLoad (config.Name cfg)) ;;
         if nonnil err then
           Ret (None, errors_Wrap err
                  "Error loading existing host. Please try running [minikube delete], then run [minikube start] again.")
         else
           (if exists_ && (config.Name cfg =? DefaultMachineName)%string then
              out_T "Tip"
                "Tip: Use 'minikube start -p <name>' to create a new cluster, or 'minikube delete' to delete this one."
                []
            else Ret tt) ;;
           h <- deref h ;;
           '(s, err) <- perform (DriverGetState (host.Driver h)) ;;
           glog_Infof "Machine state: " [LState s] ;;
           if nonnil err then Ret (None, errors_Wrap err "Error getting state for host")
           else
             let configure : prog (option host.Host * error) :=
               let e := engineOptions cfg in
               glog_Infof "engine options: %+v" [LVal "e"] ;;
               out_T "Waiting" "Waiting for the host to be provisioned ..." [] ;;
               '(h, err) <- configureHost h e ;;
               if nonnil err then Ret (None, err)
               else Ret (Some h, None) in
             if state.eqb s state.Running then
               out_T "Running"
                 ("Using the running {{.driver_name}} " ++ Go.dq ++ "{{.profile_name}}" ++ Go.dq ++ " VM ...")
                 [("driver_name", LStr (config.VMDriver cfg)); ("profile_name", LStr (config.Name cfg))] ;;
               configure
             else
               out_T "Restarting"
                 ("Starting existing {{.driver_name}} VM for " ++ Go.dq ++ "{{.profile_name}}" ++ Go.dq ++ " ...")
                 [("driver_name", LStr (config.VMDriver cfg)); ("profile_name", LStr (config.Name cfg))] ;;
               err <- perform (DriverStart (host.Driver h)) ;;
               if nonnil err then Ret (None, errors_Wrap err "start")
               else
                 err <- perform (ApiSave h) ;;
                 if nonnil err then Ret (None, errors_Wrap err "save")
                 else configure).

(** The first address of [addrs] that is a [*net.IPNet] with an IPv4
    address: the loop of [getIPForInterface]. *)
Fixpoint firstIPv4 (addrs : list net.Addr) : Go.IP :=
  match addrs with
  | [] => None
  | a :: rest =>
      match a with
      | net.IPNet ip _ =>
          match Go.To4 ip with
          | Some ip4 => Some ip4
          | None => firstIPv4 rest
          end
      | _ => firstIPv4 rest
      end
  end.

Definition getIPForInterface (name : string) : prog (Go.IP * error) :=
  '(i, _) <- perform (InterfaceByName name) ;;
  '(addrs, _) <- perform (InterfaceAddrs i) ;;
  match firstIPv4 addrs with
  | Some ip => Ret (Some ip, None)
  | None => Ret (None, errors_New ("Error finding IPV4 address for " ++ name))
  end.

(** [GetVMHostIP] gets the ip address to be used for mapping host -> VM and
    VM -> host. *)
Definition GetVMHostIP (host : host.Host) : prog (Go.IP * error) :=
  let kind := host.DriverName host in
  if (kind =? KVM2)%string then
    Ret (net_ParseIP "192.168.39.1", None)
  else if (kind =? HyperV)%string then
    let re := (Go.dq ++ "VSwitch" ++ Go.dq ++ ": " ++ Go.dq ++ "(.*?)" ++ Go.dq ++ ",")%string in
    hypervVirtualSwitch <- index (FindStringSubmatch re (host.RawDriver host)) 1 ;;
    '(ip, err) <- getIPForInterface ("vEthernet (" ++ hypervVirtualSwitch ++ ")") ;;
    if nonnil err then
      Ret (Some [], errors_Wrap err ("ip for interface (" ++ hypervVirtualSwitch ++ ")"))
    else Ret (ip, None)
  else if (kind =? VirtualBox)%string then
    vbox <- perform VBoxManagePath ;;
    '(out, err) <- perform (ExecOutput [vbox; "showvminfo"; host.Name host; "--machinereadable"]) ;;
    if nonnil err then Ret (Some [], errors_Wrap err "vboxmanage")
    else
      let re := ("hostonlyadapter2=" ++ Go.dq ++ "(.*?)" ++ Go.dq)%string in
      iface <- index (FindStringSubmatch re out) 1 ;;
      '(ip, err) <- getIPForInterface iface ;;
      if nonnil err then Ret (Some [], errors_Wrap err "Error getting VM/Host IP address")
      else Ret (ip, None)
  else if (kind =? HyperKit)%string then
    Ret (net_ParseIP "192.168.64.1", None)
  else if (kind =? VMware)%string then
    '(vmIPString, err) <- perform (DriverGetIP (host.Driver host)) ;;
    if nonnil err then Ret (Some [], errors_Wrap err "Error getting VM IP address")
    else
      match Go.To4 (net_ParseIP vmIPString) with
      | None => Ret (Some [], errors_Wrap err "Error converting VM IP address to IPv4 address")
      | Some vmIP =>
          Ret (Go.IPv4 (nth 0 vmIP 0) (nth 1 vmIP 0) (nth 2 vmIP 0) 1, None)
      end
  else
    Ret (Some [], errors_New "Error, attempted to get host ip address for unsupported driver").

End Cluster.

(** ** Observations on a run *)

Module Obs.

(** The commands sent through [RunSSHCommand], in order. *)
Definition sshCommand (e : event) : option string :=
  match e with
  | Ev c _ => match c with HostRunSSHCommand _ cmd => Some cmd | _ => None end
  end.

(** The errors answered to the commands sent through [RunSSHCommand]. *)
Definition sshError (e : event) : option error :=
  match e with
  | Ev c r =>
      match c in call T return T -> option error with
      | HostRunSSHCommand _ _ => fun a => Some (snd a)
      | _ => fun _ => None
      end r
  end.

(** The query of [guestClockDelta] and the command of [adjustGuestClock]
    for the instant [t]. *)
Definition dateQuery : string := "date +%s.%N".
Definition dateSet (t : Go.Time) : string := "sudo date -s @" ++ Go.itoa (Go.Time_Unix t).

(** The instants read from the clock, in order. *)
Definition timeSample (e : event) : option Go.Time :=
  match e with
  | Ev c r =>
      match c in call T return T -> option Go.Time with
      | TimeNow => fun t => Some t
      | _ => fun _ => None
      end r
  end.

(** The lock specifications handed to [mutex.Acquire]. *)
Definition acquireSpec (e : event) : option mutex.Spec :=
  match e with
  | Ev c _ => match c with MutexAcquire spec => Some spec | _ => None end
  end.


(** The answers of [host.Stop()]. *)
Definition stopAnswer (e : event) : option error :=
  match e with
  | Ev c r =>
      match c in call T return T -> option error with
      | HostStop _ => fun a => Some a
      | _ => fun _ => None
      end r
  end.

(** The answers of [viper.GetString]. *)
Definition viperString (e : event) : option string :=
  match e with
  | Ev c r =>
      match c in call T return T -> option string with
      | ViperGetString _ => fun a => Some a
      | _ => fun _ => None
      end r
  end.

(** The hosts on which [ConfigureAuth] was called. *)
Definition authCall (e : event) : option host.Host :=
  match e with
  | Ev c _ => match c with HostConfigureAuth h => Some h | _ => None end
  end.

(** The engine options handed to [Provision]. *)
Definition provisionCall (e : event) : option engine.Options :=
  match e with
  | Ev c _ => match c with Provision _ _ _ eo => Some eo | _ => None end
  end.

(** The answers of the two calls of directory creation that can fail: making
    the remote shell client and running [mkdir]. *)
Definition directoryAnswer (e : event) : option error :=
  match e with
  | Ev c r =>
      match c in call T return T -> option error with
      | NewSSHClient _ => fun a => Some (snd a)
      | RunCmd _ _ => fun a => Some a
      | _ => fun _ => None
      end r
  end.

(** The backend remove and the store remove. *)
Definition isRemove (e : event) : bool :=
  match e with
  | Ev c _ => match c with DriverRemove _ | ApiRemove _ => true | _ => false end
  end.


(** The first statement of [configureHost] after reading the clock. *)
Definition isConfigureHostEntry (e : event) : bool :=
  match e with
  | Ev c _ =>
      match c with
      | Glog Info format _ => (format =? "configureHost: %+v")%string
      | _ => false
      end
  end.

(** The calls of the configure step that [createHost] does not make itself:
    provisioning, configuring authentication, and the entry of
    [configureHost]. *)
Definition isConfigureStep (e : event) : bool :=
  nonnil (authCall e) || nonnil (provisionCall e) || isConfigureHostEntry e.

Definition isAcquire (e : event) : bool := nonnil (acquireSpec e).

Definition collect {A : Type} (f : event -> option A) (t : trace) : list A :=
  flat_map (fun e => match f e with Some a => [a] | None => [] end) t.

(** Whether the answer of a call reports no failure.  The calls of directory
    creation are left out: they may answer anything. *)
Definition succeeded (e : event) : bool :=
  match e with
  | Ev c r =>
      match c in call T return T -> bool with
      | MutexAcquire _ => fun a => negb (nonnil (snd a))
      | ApiExists _ => fun a => negb (nonnil (snd a))
      | ApiLoad _ => fun a => negb (nonnil (snd a))
      | ApiNewHost _ _ => fun a => negb (nonnil (snd a))
      | ApiCreate _ => fun a => negb (nonnil a)
      | ApiSave _ => fun a => negb (nonnil a)
      | ApiRemove _ => fun a => negb (nonnil a)
      | DriverGetState _ => fun a => negb (nonnil (snd a))
      | DriverStart _ => fun a => negb (nonnil a)
      | DriverRemove _ => fun a => negb (nonnil a)
      | DriverGetIP _ => fun a => negb (nonnil (snd a))
      | HostStop _ => fun a => negb (nonnil a)
      | HostConfigureAuth _ => fun a => negb (nonnil a)
      | HostRunSSHCommand _ _ => fun a => negb (nonnil (snd a))
      | DetectProvisioner _ => fun a => negb (nonnil (snd a))
      | Provision _ _ _ _ => fun a => negb (nonnil a)
      | JsonMarshal _ => fun a => negb (nonnil (snd a))
      | RegistryDriver _ => fun a => negb (registry.Empty a)
      | _ => fun _ => true
      end r
  end.

End Obs.

(** The tolerance test of [ensureSyncedGuestClock] on binary64 numbers, as Go
    computes it; the constant is the binary64 number nearest to 2.1. *)
Module Binary64.
Import PrimFloat.

Definition maxClockDesyncSeconds : float := 0x1.0cccccccccccdp+1%float.

Definition withinTolerance (d : Go.Duration) : bool :=
  ltb (abs (Go.Seconds64 d)) maxClockDesyncSeconds.

End Binary64.

(** An outcome that, unless it is a panic, is a value for which [good]
    holds. *)
Definition completes {A : Type} (good : A -> Prop) (o : outcome A) : Prop :=
  match o with
  | Returned a => good a
  | Panicked => True
  end.

(** The history when [DeleteHost] asks for the status: after the load and,
    when the load gave an error and no host, the orphan clean-up. *)
Definition loadOrCleanUp {K : Consts} (machineName : string) : prog (option host.Host * error) :=
  '(host, err) <- perform (ApiLoad machineName) ;;
  (if nonnil err && negb (nonnil host) then deleteOrphanedKIC machineName else Ret tt) ;;
  Ret (host, err).

(** The lock of the machines directory: the specification
    [acquireMachinesLock] builds. *)
Definition machinesLock {K : Consts} : mutex.Spec :=
  let spec := PathMutexSpec (filepath_Join [MiniPath; "machines"]) in
  {| mutex.Name := mutex.Name spec;
     mutex.Delay := mutex.Delay spec;
     mutex.Timeout := 10 * Go.Minute |}.

(** The kinds [GetVMHostIP] has a strategy for, in the order of its cases. *)
Definition strategyKinds {K : Consts} : list string :=
  [KVM2; HyperV; VirtualBox; HyperKit; VMware].

(** ** A valuation of the constants and some collaborators, to run the code *)

Module Sample.

Fixpoint join (sep : string) (l : list string) : string :=
  match l with
  | [] => ""
  | [a] => a
  | a :: rest => a ++ sep ++ join sep rest
  end.

(** The values the constants have in the minikube tree. *)
#[export] Instance consts : Consts := {|
  Mock := "mock";
  Docker := "docker";
  KVM2 := "kvm2";
  VirtualBox := "virtualbox";
  HyperKit := "hyperkit";
  VMware := "vmware";
  VMwareFusion := "vmwarefusion";
  HyperV := "hyperv";
  BareMetal := fun name => (name =? "none")%string || (name =? "mock")%string;
  IsKIC := fun name => (name =? "docker")%string;
  DefaultMachineName := "minikube";
  DefaultServiceCIDR := "10.96.0.0/12";
  MachineProfile := "profile";
  ShowDriverDeprecationNotification := "ShowDriverDeprecationNotification";
  GuestAddonsDir := "/etc/kubernetes/addons";
  GuestManifestsDir := "/etc/kubernetes/manifests";
  GuestEphemeralDir := "/var/tmp/minikube";
  GuestPersistentDir := "/var/lib/minikube";
  GuestCertsDir := "/var/lib/minikube/certs";
  MiniPath := "/home/user/.minikube";
  PathMutexSpec := fun path =>
    {| mutex.Name := "mk:" ++ path;
       mutex.Delay := 500 * Go.Millisecond;
       mutex.Timeout := 60 * Go.Second |};
  oci_Docker := "docker";
  DefaultEngineInstallURL := "https://get.docker.com";
  path_Join := join "/";
  filepath_Join := join "/";
  FindStringSubmatch := fun _ _ => [];
  parseIPv6 := fun _ => None
|}.

Definition options : host.Options :=
  {| host.EngineOptions :=
       {| engine.Env := []; engine.InsecureRegistry := []; engine.RegistryMirror := [];
          engine.ArbitraryFlags := []; engine.InstallURL := "" |};
     host.SwarmOptions := {| swarm.IsSwarm := false |};
     host.AuthOptions := {| auth.CertDir := ""; auth.StorePath := "" |} |}.

Definition machine (name kind : string) : host.Host :=
  {| host.Name := name;
     host.DriverName := kind;
     host.Driver := {| drivers.DriverName := kind; drivers.MachineName := name |};
     host.RawDriver := "{}";
     host.HostOptions := options |}.

Definition cfg (kind : string) (dockerEnv : list string) : config.MachineConfig :=
  {| config.Name := "minikube";
     config.VMDriver := kind;
     config.CPUs := 2;
     config.Memory := 2000;
     config.DiskSize := 20000;
     config.DockerEnv := dockerEnv;
     config.InsecureRegistry := [];
     config.RegistryMirror := [];
     config.DockerOpt := [] |}.

(** The local clock: one millisecond passes with every call. *)
Definition clock (hist : trace) : Go.Time :=
  Go.Unix 1580000000 0 + Z.of_nat (List.length hist) * Go.Millisecond.

(** Collaborators for which every call succeeds: the machine exists, is a
    running VirtualBox machine, and its clock reads [guestClock]. *)
Definition world (guestClock : string) : Env :=
  fun T hist c =>
    match c in call T return T with
    | Glog _ _ _ => tt
    | OutT _ _ _ => tt
    | OutWarningT _ _ => tt
    | TimeNow => clock hist
    | TimeSleep _ => tt
    | ViperGetString _ => "minikube"
    | ViperGetBool _ => true
    | MutexAcquire _ => ("releaser", None)
    | Release _ => tt
    | ApiExists _ => (true, None)
    | ApiLoad name => (Some (machine name "virtualbox"), None)
    | ApiNewHost kind raw => (Some (machine "minikube" kind), None)
    | ApiCreate _ => None
    | ApiSave _ => None
    | ApiRemove _ => None
    | DriverGetState _ => (state.Running, None)
    | DriverStart _ => None
    | DriverRemove _ => None
    | DriverGetIP _ => ("192.168.99.100", None)
    | HostStop _ => None
    | HostConfigureAuth _ => None
    | HostRunSSHCommand _ cmd =>
        if (cmd =? "date +%s.%N")%string then (guestClock, None) else ("", None)
    | DetectProvisioner _ => ({| provision.String := "buildroot" |}, None)
    | Provision _ _ _ _ => None
    | GetOsReleaseInfo _ => ({| provision.PrettyName := "Buildroot 2019.02.7" |}, None)
    | NewOsRelease _ => ({| provision.PrettyName := "Debian GNU/Linux 10" |}, None)
    | NewSSHClient _ => ("ssh", None)
    | RunCmd _ _ => None
    | ExecRun _ => None
    | ExecOutput _ => ("", None)
    | ReadFile _ => ("", None)
    | RegistryDriver _ => {| registry.Empty := false; registry.Config := fun _ => "{}" |}
    | JsonMarshal dd => (dd, None)
    | VBoxManagePath => "VBoxManage"
    | CpuInfo => (4, None)
    | MemVirtualMemory => (8589934592, None)
    | DiskUsage _ => (107374182400, None)
    | InterfaceByName name => (Some name, None)
    | InterfaceAddrs _ => ([net.IPNet (Go.IPv4 192 168 99 1) [255; 255; 255; 0]], None)
    end.

(** A guest clock half a second ahead of the start of [clock]. *)
Definition inSync : string := "1580000000.500000000" ++ nl.

(** The guest answers with whole seconds only. *)
Definition wholeSeconds : string := "1580000000" ++ nl.

(** The store does not know the machine. *)
Definition absent (w : Env) : Env :=
  fun T hist c =>
    match c in call T return T with
    | ApiExists _ => (false, None)
    | c' => w _ hist c'
    end.



(** Setting the guest clock fails. *)
Definition dateSetFails (w : Env) : Env :=
  fun T hist c =>
    match c in call T return T with
    | HostRunSSHCommand _ cmd =>
        if (cmd =? "date +%s.%N")%string then w _ hist (HostRunSSHCommand (machine "" "") cmd)
        else ("", Some (Opaque "exit status 1"))
    | c' => w _ hist c'
    end.

(** The backend says the machine is already stopped. *)
Definition alreadyStopped (w : Env) : Env :=
  fun T hist c =>
    match c in call T return T with
    | HostStop h => Some (ErrHostAlreadyInState (host.Name h) state.Stopped)
    | c' => w _ hist c'
    end.

(** The first load of the machine fails and gives no host; later loads
    succeed. *)
Definition firstLoadFails (w : Env) : Env :=
  fun T hist c =>
    match c in call T return T with
    | ApiLoad name =>
        if existsb (fun e => match e with Ev (ApiLoad _) _ => true | _ => false end) hist
        then w _ hist (ApiLoad name)
        else (None, Some (Opaque "open config.json: no such file or directory"))
    | c' => w _ hist c'
    end.

(** No interface has the name asked for; on the absent handle the
    enumeration gives no address and an error, as the [Addrs] method of
    [net.Interface] does for a nil receiver. *)
Definition noInterface (w : Env) : Env :=
  fun T hist c =>
    match c in call T return T with
    | InterfaceByName _ => (None, Some (Opaque "route ip+net: no such network interface"))
    | InterfaceAddrs None => ([], Some (Opaque "route ip+net: invalid network interface"))
    | c' => w _ hist c'
    end.

End Sample.

(** ** Further functions of the package *)

Section Lookup.

Context {K : Consts}.

(** [kic.DefaultBindIPV4] *)
Variable DefaultBindIPV4 : string.

(** The verb [%q] of package fmt on a string: [strconv.Quote]. *)
Variable Quote : string -> string.

(** [CheckIfHostExistsAndLoad] checks if a host exists, and loads it if it
    does. *)
Definition CheckIfHostExistsAndLoad (machineName : string) : prog (option host.Host * error) :=
  glog_Infof "Checking if %q exists ..." [LStr machineName] ;;
  '(exists_, err) <- perform (ApiExists machineName) ;;
  if nonnil err then
    Ret (None, errors_Wrap err ("Error checking that machine exists: " ++ machineName))
  else if negb exists_ then
    Ret (None, errors_New ("machine " ++ Quote machineName ++ " does not exist"))
  else
    '(host, err) <- perform (ApiLoad machineName) ;;
    if nonnil err then Ret (None, errors_Wrap err ("loading machine " ++ Quote machineName))
    else Ret (host, None).

(** [GetHostDriverIP] gets the ip address of the current minikube cluster. *)
Definition GetHostDriverIP (machineName : string) : prog (Go.IP * error) :=
  '(host, err) <- CheckIfHostExistsAndLoad machineName ;;
  if nonnil err then Ret (None, err)
  else
    host <- deref host ;;
    '(ipStr, err) <- perform (DriverGetIP (host.Driver host)) ;;
    if nonnil err then Ret (None, errors_Wrap err "getting IP")
    else
      let ipStr := if IsKIC (host.DriverName host) then DefaultBindIPV4 else ipStr in
      let ip := net_ParseIP ipStr in
      if nonnil ip then Ret (ip, None)
      else Ret (None, errors_New ("parsing IP: " ++ ipStr)).

(** [IsHostRunning] asserts that this profile's primary host is in state
    "Running". *)
Definition IsHostRunning (name : string) : prog bool :=
  '(s, err) <- GetHostStatus name ;;
  if nonnil err then
    glog_Warningf "host status for %q returned error: %v" [LStr name; LErr err] ;;
    Ret false
  else if negb (s =? state.String state.Running)%string then
    glog_Warningf "%q host status: %s" [LStr name; LStr s] ;;
    Ret false
  else Ret true.

End Lookup.

(** ** Further observations on a run *)

Module Calls.

(** The releasers released. *)
Definition release (e : event) : option mutex.Releaser :=
  match e with
  | Ev c _ => match c with Release r => Some r | _ => None end
  end.

(** The answers of [mutex.Acquire]. *)
Definition acquireAnswer (e : event) : option (mutex.Releaser * error) :=
  match e with
  | Ev c r =>
      match c in call T return T -> option (mutex.Releaser * error) with
      | MutexAcquire _ => fun a => Some a
      | _ => fun _ => None
      end r
  end.

(** A call to the store, the driver, the host, a provisioner or a command
    runner: anything but logging, the clock, the lock and the configuration
    store. *)
Definition isBackend (e : event) : bool :=
  match e with
  | Ev c _ =>
      match c with
      | Glog _ _ _ | OutT _ _ _ | OutWarningT _ _ | TimeNow | TimeSleep _
      | ViperGetString _ | ViperGetBool _ | MutexAcquire _ | Release _ => false
      | _ => true
      end
  end.

(** Anything but the three queries of [GetHostStatus]. *)
Definition isNotStatusQuery (e : event) : bool :=
  match e with
  | Ev c _ =>
      match c with
      | ApiExists _ | ApiLoad _ | DriverGetState _ => false
      | _ => true
      end
  end.

(** The answers of [api.Load]. *)
Definition loadAnswer (e : event) : option (option host.Host * error) :=
  match e with
  | Ev c r =>
      match c in call T return T -> option (option host.Host * error) with
      | ApiLoad _ => fun a => Some a
      | _ => fun _ => None
      end r
  end.

(** The answers of the backend remove and of the store remove. *)
Definition driverRemoveAnswer (e : event) : option error :=
  match e with
  | Ev c r =>
      match c in call T return T -> option error with
      | DriverRemove _ => fun a => Some a
      | _ => fun _ => None
      end r
  end.

Definition storeRemoveAnswer (e : event) : option error :=
  match e with
  | Ev c r =>
      match c in call T return T -> option error with
      | ApiRemove _ => fun a => Some a
      | _ => fun _ => None
      end r
  end.

(** The command lines run with [exec.Command(...).Run()]. *)
Definition execRun (e : event) : option (list string) :=
  match e with
  | Ev c _ => match c with ExecRun argv => Some argv | _ => None end
  end.

(** The answers of [ConfigureAuth]. *)
Definition authAnswer (e : event) : option error :=
  match e with
  | Ev c r =>
      match c in call T return T -> option error with
      | HostConfigureAuth _ => fun a => Some a
      | _ => fun _ => None
      end r
  end.

(** The hosts handed to [api.Create] and to [api.Save], with the answer. *)
Definition createCall (e : event) : option (host.Host * error) :=
  match e with
  | Ev c r =>
      match c in call T return T -> option (host.Host * error) with
      | ApiCreate h => fun a => Some (h, a)
      | _ => fun _ => None
      end r
  end.

Definition saveCall (e : event) : option (host.Host * error) :=
  match e with
  | Ev c r =>
      match c in call T return T -> option (host.Host * error) with
      | ApiSave h => fun a => Some (h, a)
      | _ => fun _ => None
      end r
  end.

(** The driver kinds for which a new host was asked of the store. *)
Definition newHostCall (e : event) : option string :=
  match e with
  | Ev c _ => match c with ApiNewHost kind _ => Some kind | _ => None end
  end.

(** The pauses made with [time.Sleep]. *)
Definition sleep (e : event) : option Go.Duration :=
  match e with
  | Ev c _ => match c with TimeSleep d => Some d | _ => None end
  end.

(** The commands handed to a command runner. *)
Definition runCmd (e : event) : option (command.Runner * list string) :=
  match e with
  | Ev c _ => match c with RunCmd r argv => Some (r, argv) | _ => None end
  end.

(** The probes of the local machine, by name. *)
Definition probe (e : event) : option string :=
  match e with
  | Ev c _ =>
      match c with
      | CpuInfo => Some "cpu"
      | MemVirtualMemory => Some "mem"
      | DiskUsage _ => Some "disk"
      | _ => None
      end
  end.

(** The drivers asked for their IP address. *)
Definition getIPCall (e : event) : option drivers.Driver :=
  match e with
  | Ev c _ => match c with DriverGetIP d => Some d | _ => None end
  end.

(** The answers of [GetState] and of [GetIP]. *)
Definition stateAnswer (e : event) : option (state.State * error) :=
  match e with
  | Ev c r =>
      match c in call T return T -> option (state.State * error) with
      | DriverGetState _ => fun a => Some a
      | _ => fun _ => None
      end r
  end.

Definition ipAnswer (e : event) : option (string * error) :=
  match e with
  | Ev c r =>
      match c in call T return T -> option (string * error) with
      | DriverGetIP _ => fun a => Some a
      | _ => fun _ => None
      end r
  end.

(** The answers of [registry.Driver] and of the backend start. *)
Definition registryAnswer (e : event) : option registry.DriverDef :=
  match e with
  | Ev c r =>
      match c in call T return T -> option registry.DriverDef with
      | RegistryDriver _ => fun a => Some a
      | _ => fun _ => None
      end r
  end.

Definition startAnswer (e : event) : option error :=
  match e with
  | Ev c r =>
      match c in call T return T -> option error with
      | DriverStart _ => fun a => Some a
      | _ => fun _ => None
      end r
  end.

(** The drivers for which a provisioner was looked for. *)
Definition detectCall (e : event) : option drivers.Driver :=
  match e with
  | Ev c _ => match c with DetectProvisioner d => Some d | _ => None end
  end.

(** A call that makes, creates, saves or starts a machine or reads its
    state, a look into the registry, or a pause. *)
Definition isStoreCall (e : event) : bool :=
  nonnil (createCall e) || nonnil (saveCall e) || nonnil (sleep e)
  || nonnil (newHostCall e) || nonnil (registryAnswer e)
  || nonnil (stateAnswer e) || nonnil (startAnswer e).

End Calls.

(** The regular expressions of [GetVMHostIP]. *)
Definition vswitchPattern : string :=
  Go.dq ++ "VSwitch" ++ Go.dq ++ ": " ++ Go.dq ++ "(.*?)" ++ Go.dq ++ ",".

Definition hostonlyPattern : string :=
  "hostonlyadapter2=" ++ Go.dq ++ "(.*?)" ++ Go.dq.

Module SampleX.

(** The query of the guest clock fails. *)
Definition dateQueryFails (w : Env) : Env :=
  fun T hist c =>
    match c in call T return T with
    | HostRunSSHCommand _ _ => ("", Some (Opaque "ssh: connection refused"))
    | c' => w _ hist c'
    end.

(** The lock is held by someone else until the timeout. *)
Definition lockTimesOut (w : Env) : Env :=
  fun T hist c =>
    match c in call T return T with
    | MutexAcquire _ => ("", Some (Opaque "timeout acquiring mutex"))
    | c' => w _ hist c'
    end.

(** The store cannot load the machine. *)
Definition loadFails (w : Env) : Env :=
  fun T hist c =>
    match c in call T return T with
    | ApiLoad _ => (None, Some (Opaque "open config.json: permission denied"))
    | c' => w _ hist c'
    end.

(** The backend cannot remove the machine. *)
Definition removeFails (w : Env) : Env :=
  fun T hist c =>
    match c in call T return T with
    | DriverRemove _ => Some (Opaque "machine is locked")
    | c' => w _ hist c'
    end.

(** The backend cannot create the machine. *)
Definition createFails (w : Env) : Env :=
  fun T hist c =>
    match c in call T return T with
    | ApiCreate _ => Some (Opaque "creating machine: VBoxManage failed")
    | c' => w _ hist c'
    end.

(** The registry has no driver of the name. *)
Definition noDriver (w : Env) : Env :=
  fun T hist c =>
    match c in call T return T with
    | RegistryDriver _ => {| registry.Empty := true; registry.Config := fun _ => "" |}
    | c' => w _ hist c'
    end.

(** The driver does not know the address of the machine. *)
Definition getIPFails (w : Env) : Env :=
  fun T hist c =>
    match c in call T return T with
    | DriverGetIP _ => ("", Some (Opaque "host is not running"))
    | c' => w _ hist c'
    end.

(** The driver reports an address that is not an IP address. *)
Definition badIP (w : Env) : Env :=
  fun T hist c =>
    match c in call T return T with
    | DriverGetIP _ => ("localhost", None)
    | c' => w _ hist c'
    end.

(** The machine is stopped. *)
Definition stopped (w : Env) : Env :=
  fun T hist c =>
    match c in call T return T with
    | DriverGetState _ => (state.Stopped, None)
    | c' => w _ hist c'
    end.

(** The backend cannot start the machine. *)
Definition startFails (w : Env) : Env :=
  fun T hist c =>
    match c in call T return T with
    | DriverStart _ => Some (Opaque "VT-x is not available")
    | c' => w _ hist c'
    end.

(** The machines of the store are [kind] machines. *)
Definition ofKind (kind : string) (w : Env) : Env :=
  fun T hist c =>
    match c in call T return T with
    | ApiLoad name => (Some (Sample.machine name kind), None)
    | c' => w _ hist c'
    end.

End SampleX.
Unset Implicit Arguments.

(** * Properties *)

(** ** The Go library functions on sample inputs *)

Example Split_date : Go.Split "1580000000.123456789" "." = ["1580000000"; "123456789"].
Proof. reflexivity. Qed.

Example Split_no_dot : Go.Split "1580000000" "." = ["1580000000"].
Proof. reflexivity. Qed.

Example Split_trailing : Go.Split "a." "." = ["a"; ""].
Proof. reflexivity. Qed.

Example TrimSpace_newline : Go.TrimSpace (" 12.5" ++ String "010"%char "") = "12.5".
Proof. reflexivity. Qed.

Example ParseInt_ok : Go.ParseInt "-42" = (-42, None).
Proof. reflexivity. Qed.

Example ParseInt_percent_N : Go.ParseInt "%N" = (0, Some Go.ErrSyntax).
Proof. reflexivity. Qed.

Example ParseInt_range :
  Go.ParseInt "9223372036854775808" = (9223372036854775807, Some Go.ErrRange).
Proof. reflexivity. Qed.

Example ParseIP_kvm :
  Go.ParseIP (fun _ => None) "192.168.39.1" = Go.IPv4 192 168 39 1.
Proof. reflexivity. Qed.

(** On both sides of the bound, the binary64 test of Go and the exact test
    agree. *)
Example withinTolerance_binary64_boundary :
  map Binary64.withinTolerance [2099999999; 2100000000; -2099999999; -2100000000; -2090000000; -2200000000]
  = map withinTolerance [2099999999; 2100000000; -2099999999; -2100000000; -2090000000; -2200000000].
Proof. vm_compute. reflexivity. Qed.
(** ** Runs of composite programs *)

Section Runs.

Variable env : Env.

Lemma exec_bind {A B : Type} (p : prog A) (k : A -> prog B) (hist : trace) :
  exec env (bind p k) hist =
    match result env p hist with
    | Returned a =>
        (events env p hist ++ events env (k a) (hist ++ events env p hist),
         result env (k a) (hist ++ events env p hist))
    | Panicked => (events env p hist, Panicked)
    end.
Proof.
  revert hist. induction p as [a| |T c f IH]; intro hist.
  - cbn. rewrite app_nil_r. unfold events, result. now destruct (exec env (k a) hist).
  - reflexivity.
  - cbn [bind exec]. unfold events, result in *. cbn [exec fst snd].
    rewrite IH.
    destruct (snd (exec env (f (env T hist c)) (hist ++ [Ev c (env T hist c)]))); cbn [fst snd].
    + now rewrite <- !app_assoc.
    + reflexivity.
Qed.

Lemma events_bind {A B : Type} (p : prog A) (k : A -> prog B) (hist : trace) :
  events env (bind p k) hist =
    events env p hist ++
    match result env p hist with
    | Returned a => events env (k a) (hist ++ events env p hist)
    | Panicked => []
    end.
Proof.
  unfold events at 1. rewrite exec_bind.
  destruct (result env p hist); cbn [fst]; now rewrite ?app_nil_r.
Qed.

Lemma result_bind {A B : Type} (p : prog A) (k : A -> prog B) (hist : trace) :
  result env (bind p k) hist =
    match result env p hist with
    | Returned a => result env (k a) (hist ++ events env p hist)
    | Panicked => Panicked
    end.
Proof.
  unfold result at 1. rewrite exec_bind. now destruct (result env p hist).
Qed.

Lemma exec_defer {A : Type} (d : prog unit) (body : prog A) (hist : trace) :
  exec env (defer d body) hist =
    (events env body hist ++ events env d (hist ++ events env body hist),
     match result env d (hist ++ events env body hist) with
     | Returned _ => result env body hist
     | Panicked => Panicked
     end).
Proof.
  revert hist. induction body as [a| |T c f IH]; intro hist.
  - cbn [defer]. rewrite exec_bind. unfold events, result. cbn [exec fst snd].
    rewrite !app_nil_r. destruct (snd (exec env d hist)); cbn; now rewrite ?app_nil_r.
  - cbn [defer]. rewrite exec_bind. unfold events, result. cbn [exec fst snd].
    rewrite !app_nil_r. destruct (snd (exec env d hist)); cbn; now rewrite ?app_nil_r.
  - cbn [defer exec]. rewrite IH. unfold events, result. cbn [exec fst snd].
    now rewrite <- !app_assoc.
Qed.

Lemma events_defer {A : Type} (d : prog unit) (body : prog A) (hist : trace) :
  events env (defer d body) hist =
    events env body hist ++ events env d (hist ++ events env body hist).
Proof. unfold events at 1. now rewrite exec_defer. Qed.

Lemma result_defer {A : Type} (d : prog unit) (body : prog A) (hist : trace) :
  result env (defer d body) hist =
    match result env d (hist ++ events env body hist) with
    | Returned _ => result env body hist
    | Panicked => Panicked
    end.
Proof. unfold result at 1. now rewrite exec_defer. Qed.

Lemma events_Do {A T : Type} (c : call T) (k : T -> prog A) (hist : trace) :
  events env (Do c k) hist =
    Ev c (env T hist c) :: events env (k (env T hist c)) (hist ++ [Ev c (env T hist c)]).
Proof. reflexivity. Qed.

Lemma result_Do {A T : Type} (c : call T) (k : T -> prog A) (hist : trace) :
  result env (Do c k) hist = result env (k (env T hist c)) (hist ++ [Ev c (env T hist c)]).
Proof. reflexivity. Qed.

End Runs.

Lemma collect_app {A : Type} (f : event -> option A) (s t : trace) :
  Obs.collect f (s ++ t) = Obs.collect f s ++ Obs.collect f t.
Proof. apply flat_map_app. Qed.

Lemma collect_cons {A : Type} (f : event -> option A) (e : event) (t : trace) :
  Obs.collect f (e :: t) = match f e with Some a => [a] | None => [] end ++ Obs.collect f t.
Proof. reflexivity. Qed.

Lemma collect_nil {A : Type} (f : event -> option A) : Obs.collect f [] = [].
Proof. reflexivity. Qed.

(** ** The clock synchroniser *)

Lemma withinTolerance_spec (d : Go.Duration) :
  withinTolerance d = true <-> (Qabs (Go.Seconds d) < maxClockDesyncSeconds)%Q.
Proof.
  unfold withinTolerance. rewrite negb_true_iff.
  destruct (Qle_bool maxClockDesyncSeconds (Qabs (Go.Seconds d))) eqn:E.
  - apply Qle_bool_iff in E. split; [discriminate|]. intro H.
    exfalso. exact (Qlt_not_le _ _ H E).
  - split; [intros _|reflexivity]. apply Qnot_le_lt. intro H.
    apply Qle_bool_iff in H. congruence.
Qed.

Lemma Seconds_exact (d : Go.Duration) : (Go.Seconds d == d # 1000000000)%Q.
Proof.
  unfold Go.Seconds.
  assert (H : d = 1000000000 * Z.quot d 1000000000 + Z.rem d 1000000000)
    by (apply Z.quot_rem'; lia).
  change Go.Second with 1000000000.
  set (q := Z.quot d 1000000000) in *. set (r := Z.rem d 1000000000) in *.
  unfold Qeq, Qplus, Qdiv, Qmult, Qinv, inject_Z. cbn. lia.
Qed.

(** The tolerance test in nanoseconds: 2.1 seconds is 2100 milliseconds. *)
Lemma withinTolerance_nanoseconds (d : Go.Duration) :
  withinTolerance d = (Z.abs d <? 2100 * Go.Millisecond).
Proof.
  apply eq_true_iff_eq. rewrite withinTolerance_spec, Z.ltb_lt.
  rewrite Seconds_exact. unfold maxClockDesyncSeconds, Qlt, Qabs. cbn.
  change (2100 * Go.Millisecond) with 2100000000. lia.
Qed.

(** Symbolic execution: name the answer to the earliest call that is still
    unknown, then follow the case distinction the program is stuck on. *)
Ltac earliest env :=
  match goal with
  | |- context [env ?T ?h ?c] =>
      lazymatch h with
      | context [env _ _ _] => fail
      | _ => let a := fresh "a" in generalize (env T h c); intro a
      end
  end.

Ltac stuck_on x :=
  first [ is_var x; destruct x
        | lazymatch x with
          | nonnil ?y => stuck_on y
          | negb ?y => stuck_on y
          | andb ?y _ => stuck_on y
          | _ =>
              lazymatch goal with
              | |- ?G => destruct x eqn:?; lazymatch goal with |- G => fail | |- _ => idtac end
              end
          end ].

Ltac stuck_in p :=
  lazymatch p with
  | bind ?q _ => stuck_in q
  | defer _ ?q => stuck_in q
  | match ?x with _ => _ end => stuck_on x
  end.

Ltac branch :=
  match goal with
  | |- context [exec _ ?p _] => stuck_in p
  end.

Ltac simp :=
  unfold events, result, deref, index;
  cbn [bind defer exec fst snd perform nth_error nonnil
       glog_Infof glog_Warningf glog_Errorf out_T out_WarningT time_Now time_Since
       errors_Wrap errors_New option_map app negb andb orb].

(** Histories in the one form [hist ++ [e1; ...; en]]. *)
Ltac canon := rewrite <- ?app_assoc; cbn [app].

Ltac run env := repeat first [progress simp | earliest env | branch].

(** ** Runs in which every call succeeds, directory creation apart *)

(** The program is stuck at the call of another function: name its events
    and its outcome. *)
Ltac skip_call env known :=
  match goal with
  | |- context [exec env (defer ?d ?b) ?h] =>
      rewrite (exec_defer env d b h); unfold events, result
  | |- context [exec env (bind ?q _) ?h] =>
      known q h;
      first [ match goal with
              | |- context [exec env (bind q ?k) h] => rewrite (exec_bind env q k h)
              end
            | rewrite (exec_bind env q) ];
      unfold events, result;
      let evs := fresh "evs" in destruct (exec env q h) as [evs [?|]]
  | |- context [exec env ?q ?h] =>
      lazymatch q with
      | bind _ _ => fail
      | defer _ _ => fail
      | match _ with _ => _ end => fail
      | _ => idtac
      end;
      known q h; unfold events, result;
      let evs := fresh "evs" in destruct (exec env q h) as [evs [?|]]
  end.

Ltac nothing_known q h := idtac.


(** What a premise [forallb Obs.succeeded run = true] says, call by call. *)
Ltac succeeded :=
  repeat (progress (rewrite ?app_nil_r, ?forallb_app;
                    cbn [forallb Obs.succeeded negb nonnil snd fst andb]));
  rewrite ?andb_true_iff, ?andb_true_r;
  intros;
  repeat match goal with
    | H : _ /\ _ |- _ => destruct H
    | H : false = true |- _ => discriminate H
    | H : ?x = false, H' : negb ?x = true |- _ => rewrite H in H'; discriminate H'
    | H : ?x = true, H' : negb ?x = true |- _ => rewrite H in H'; discriminate H'
    | H : true = true -> _ |- _ => specialize (H eq_refl)
    | H : ?x = true -> _, H' : ?x = true |- _ => specialize (H H')
    end.


(** ** Calls a program never makes *)

Lemma avoids_bind {A B : Type} (bad : event -> bool) (p : prog A) (k : A -> prog B) :
  avoids bad p -> (forall a, avoids bad (k a)) -> avoids bad (bind p k).
Proof.
  intros Hp Hk. induction Hp as [a| |T c f Hc Hf IH]; cbn [bind].
  - apply Hk.
  - constructor.
  - constructor; auto.
Qed.

Lemma avoids_defer {A : Type} (bad : event -> bool) (d : prog unit) (body : prog A) :
  avoids bad d -> avoids bad body -> avoids bad (defer d body).
Proof.
  intros Hd Hb. induction Hb as [a| |T c f Hc Hf IH]; cbn [defer].
  - apply avoids_bind; [assumption|constructor].
  - apply avoids_bind; [assumption|constructor].
  - constructor; auto.
Qed.

Lemma avoids_run {A : Type} (bad : event -> bool) (p : prog A) (env : Env) (hist : trace) :
  avoids bad p -> existsb bad (events env p hist) = false.
Proof.
  intro Hp. revert hist. induction Hp as [a| |T c f Hc Hf IH]; intro hist.
  - reflexivity.
  - reflexivity.
  - rewrite events_Do. cbn [existsb]. now rewrite Hc, IH.
Qed.

Lemma collect_avoided {A : Type} (f : event -> option A) (t : trace) :
  existsb (fun e => nonnil (f e)) t = false -> Obs.collect f t = [].
Proof.
  induction t as [|e t IH]; [reflexivity|]. cbn [existsb]. rewrite collect_cons.
  destruct (f e); cbn; [discriminate|]. exact IH.
Qed.

Ltac avoid :=
  repeat match goal with
    | H : context [avoids] |- avoids _ _ => solve [apply H]
    | |- avoids _ (Ret _) => apply avoids_Ret
    | |- avoids _ Panic => apply avoids_Panic
    | |- avoids _ (Do _ _) => apply avoids_Do; [intro; reflexivity | intro]
    | |- avoids _ (bind _ _) => apply avoids_bind; [ | intro]
    | |- avoids _ (defer _ _) => apply avoids_defer
    | |- avoids _ (deref ?x) => destruct x; cbn [deref]
    | |- avoids _ (index ?l ?n) => unfold index; destruct (nth_error l n)
    | |- avoids _ (match ?x with _ => _ end) => destruct x
    | |- avoids _ _ =>
        progress unfold perform, glog_Infof, glog_Warningf, glog_Errorf, out_T, out_WarningT,
          time_Now, time_Since
    end.

Section Avoided.

Context {K : Consts}.


Lemma createHost_avoids_acquire (cfg : config.MachineConfig) :
  avoids Obs.isAcquire (createHost cfg).
Proof.
  unfold createHost, showHostInfo, getHostInfo, createRequiredDirectories, commandRunner,
    showLocalOsRelease, showRemoteOsRelease, ensureSyncedGuestClock, guestClockDelta,
    adjustGuestClock.
  avoid.
Qed.

Lemma configureHost_avoids_acquire (h : host.Host) (e : engine.Options) :
  avoids Obs.isAcquire (configureHost h e).
Proof.
  unfold configureHost, createRequiredDirectories, commandRunner,
    ensureSyncedGuestClock, guestClockDelta, adjustGuestClock.
  avoid.
Qed.

Lemma ensureSyncedGuestClock_avoids_configure (h : host.Host) :
  avoids Obs.isConfigureStep (ensureSyncedGuestClock h).
Proof. unfold ensureSyncedGuestClock, guestClockDelta, adjustGuestClock. avoid. Qed.

Lemma createRequiredDirectories_avoids_configure (h : host.Host) :
  avoids Obs.isConfigureStep (createRequiredDirectories h).
Proof. unfold createRequiredDirectories, commandRunner. avoid. Qed.

End Avoided.

Section Clock.

Variable env : Env.

(** Whatever the guest answers, measuring sends the one query and does not
    read the local clock; when the query fails, so does the measurement. *)
Lemma guestClockDelta_observed (h : host.Host) (t : Go.Time) (hist : trace) :
  let answer := env _ hist (HostRunSSHCommand h Obs.dateQuery) in
  Obs.collect Obs.sshCommand (events env (guestClockDelta h t) hist) = [Obs.dateQuery]
  /\ Obs.collect Obs.sshError (events env (guestClockDelta h t) hist) = [snd answer]
  /\ Obs.collect Obs.timeSample (events env (guestClockDelta h t) hist) = []
  /\ (nonnil (snd answer) = true ->
      result env (guestClockDelta h t) hist = Returned (0, errors_Wrap (snd answer) "get clock")).
Proof.
  unfold guestClockDelta, events, result, Obs.dateQuery. cbn.
  destruct (env _ hist (HostRunSSHCommand h "date +%s.%N")) as [out [e|]]; cbn.
  - auto.
  - destruct (Go.Split (Go.TrimSpace out) ".") as [|ns0 [|ns1 rest]]; cbn.
    + repeat split; discriminate.
    + destruct (strconv_ParseInt (Go.TrimSpace ns0)) as [secs [e|]]; cbn;
        repeat split; discriminate.
    + destruct (strconv_ParseInt (Go.TrimSpace ns0)) as [secs [e|]]; cbn;
        [repeat split; discriminate|].
      destruct (strconv_ParseInt (Go.TrimSpace ns1)) as [nsecs [e|]]; cbn;
        repeat split; discriminate.
Qed.

Lemma adjustGuestClock_run (h : host.Host) (t : Go.Time) (hist : trace) :
  let answer := env _ hist (HostRunSSHCommand h (Obs.dateSet t)) in
  Obs.collect Obs.sshCommand (events env (adjustGuestClock h t) hist) = [Obs.dateSet t]
  /\ Obs.collect Obs.sshError (events env (adjustGuestClock h t) hist) = [snd answer]
  /\ Obs.collect Obs.timeSample (events env (adjustGuestClock h t) hist) = []
  /\ result env (adjustGuestClock h t) hist = Returned (snd answer).
Proof.
  unfold adjustGuestClock, events, result, Obs.dateSet. cbn.
  destruct (env _ hist (HostRunSSHCommand h _)) as [out err]. cbn. auto.
Qed.

(** The run of [ensureSyncedGuestClock], given how the measurement ended:
    [now] is the instant read for the measurement, [local] the one read for
    the correction. *)
Lemma ensureSyncedGuestClock_run (h : host.Host) (hist : trace) :
  let now := env _ hist TimeNow in
  let run := events env (ensureSyncedGuestClock h) hist in
  match result env (guestClockDelta h now) (hist ++ [Ev TimeNow now]) with
  | Panicked => result env (ensureSyncedGuestClock h) hist = Panicked
  | Returned (d, Some _) =>
      result env (ensureSyncedGuestClock h) hist = Returned None
      /\ Obs.collect Obs.sshCommand run = [Obs.dateQuery]
  | Returned (d, None) =>
      if withinTolerance d then
        result env (ensureSyncedGuestClock h) hist = Returned None
        /\ Obs.collect Obs.sshCommand run = [Obs.dateQuery]
      else
        exists (local : Go.Time) (failure : error),
          Obs.collect Obs.timeSample run = [now; local]
          /\ Obs.collect Obs.sshCommand run = [Obs.dateQuery; Obs.dateSet local]
          /\ Obs.collect Obs.sshError run = [None; failure]
          /\ result env (ensureSyncedGuestClock h) hist
               = Returned (errors_Wrap failure "adjusting system clock")
  end.
Proof.
  intros now run. subst run. set (hist1 := hist ++ [Ev TimeNow now]).
  unfold ensureSyncedGuestClock, time_Now, perform.
  cbn [bind]. rewrite events_Do, result_Do. fold now. fold hist1.
  rewrite events_bind, result_bind.
  destruct (guestClockDelta_observed h now hist1) as (Hc & He & Ht & Hq).
  destruct (result env (guestClockDelta h now) hist1) as [[d [e|]]|] eqn:R.
  - rewrite collect_cons, collect_app, Hc. cbn. auto.
  - destruct (withinTolerance d).
    + rewrite collect_cons, collect_app, Hc. cbn. auto.
    + cbn [nonnil]. set (hist2 := hist1 ++ events env (guestClockDelta h now) hist1).
      cbn [bind]. rewrite events_Do, result_Do.
      set (local := env _ hist2 TimeNow). set (hist3 := hist2 ++ [Ev TimeNow local]).
      rewrite events_bind, result_bind.
      destruct (adjustGuestClock_run h local hist3) as (Ac & Ae & At & Ar).
      rewrite Ar.
      exists local, (snd (env _ hist3 (HostRunSSHCommand h (Obs.dateSet local)))).
      set (failure := snd (env _ hist3 _)) in *.
      assert (Q : snd (env _ hist1 (HostRunSSHCommand h Obs.dateQuery)) = None).
      { destruct (snd (env _ hist1 (HostRunSSHCommand h Obs.dateQuery))) as [e|]; [|reflexivity].
        specialize (Hq eq_refl). discriminate. }
      rewrite Q in He.
      repeat split.
      * rewrite !collect_cons, !collect_app, collect_cons, collect_app, Ht, At.
        cbn. now destruct (nonnil failure).
      * rewrite !collect_cons, !collect_app, collect_cons, collect_app, Hc, Ac.
        cbn. now destruct (nonnil failure).
      * rewrite !collect_cons, !collect_app, collect_cons, collect_app, He, Ae.
        cbn. now destruct (nonnil failure).
      * destruct failure; reflexivity.
  - reflexivity.
Qed.

End Clock.

Section Stop.

Context {K : Consts}.
Variable env : Env.

(** C6.  Whenever [StopHost] gets as far as the backend stop call and that
    call fails with [cause], the result is decided by [cause] alone: an
    [ErrHostAlreadyInState] error whose state is [Stopped] makes [StopHost]
    return no error, and every other failure is returned as a
    [RetriableError] wrapping it with the context "Stop: <machine name>". *)
Theorem StopHost_stop_failure (hist : trace) (machineName : string) (cause : err) :
  let run := events env StopHost hist in
  Obs.collect Obs.viperString run = [machineName] ->
  Obs.collect Obs.stopAnswer run = [Some cause] ->
  result env StopHost hist =
    Returned match cause with
             | ErrHostAlreadyInState _ state.Stopped => None
             | _ => Some (RetriableError (Wrap cause ("Stop: " ++ machineName)))
             end.
Proof.
  intro run. subst run. unfold StopHost, trySSHPowerOff.
  run env.
  all: cbn; intros Hv Hs; try discriminate Hs.
  all: injection Hv as ->; injection Hs as <-; reflexivity.
Qed.

End Stop.

Section Delete.

Context {K : Consts}.
Variable env : Env.

Lemma GetHostStatus_no_remove (machineName : string) (hist : trace) :
  existsb Obs.isRemove (events env (GetHostStatus machineName) hist) = false.
Proof. unfold GetHostStatus. run env. all: reflexivity. Qed.

(** How [DeleteHost] goes on from the status it is given. *)
Lemma DeleteHost_after_status (hist : trace) (machineName status : string) (failure : error) :
  let load := env _ hist (ApiLoad machineName) in
  result env (GetHostStatus machineName) (hist ++ events env (loadOrCleanUp machineName) hist)
    = Returned (status, failure) ->
  (status = state.String state.None ->
     result env (DeleteHost machineName) hist = Returned (Some (ErrHostDoesNotExist machineName))
     /\ existsb Obs.isRemove (events env (DeleteHost machineName) hist) = false)
  /\ (status <> state.String state.None -> fst load = None ->
     result env (DeleteHost machineName) hist = Panicked
     /\ existsb Obs.isRemove (events env (DeleteHost machineName) hist) = false).
Proof.
  unfold DeleteHost, loadOrCleanUp, deleteOrphanedKIC, result, events.
  run env.
  all: canon; intro H; rewrite exec_bind; unfold result, events.
  all: pose proof (GetHostStatus_no_remove machineName) as R; unfold events in R.
  all: match type of H with snd (exec _ _ ?h) = _ =>
         specialize (R h); destruct (exec env (GetHostStatus machineName) h) as [evs out]
       end.
  all: cbn [fst snd] in *; subst out.
  all: split; [intros -> | intros Hs Hl; cbn [fst] in Hl; try discriminate Hl; subst].
  all: try rewrite String.eqb_refl.
  all: try (apply String.eqb_neq in Hs; rewrite Hs).
  all: destruct failure; run env.
  all: cbn [existsb Obs.isRemove orb]; rewrite ?existsb_app, ?R; cbn; auto.
Qed.

End Delete.

Section Lock.

Context {K : Consts}.
Variable env : Env.

Lemma acquireMachinesLock_spec (name : string) (hist : trace) :
  Obs.collect Obs.acquireSpec (events env (acquireMachinesLock name) hist) = [machinesLock]
  /\ result env (acquireMachinesLock name) hist <> Panicked.
Proof.
  unfold acquireMachinesLock. run env. all: split; [reflexivity|discriminate].
Qed.

(** C7.  Every run of [StartHost], for every configuration and so for every
    host name, makes exactly one call of [mutex.Acquire], and always with
    the same specification [machinesLock]: it is keyed on the machines
    directory under the storage root and its timeout is 10 minutes. *)
Theorem machines_lock_scope (cfg : config.MachineConfig) (hist : trace) :
  Obs.collect Obs.acquireSpec (events env (StartHost cfg) hist) = [machinesLock]
  /\ mutex.Name machinesLock = mutex.Name (PathMutexSpec (filepath_Join [MiniPath; "machines"]))
  /\ mutex.Timeout machinesLock = 10 * Go.Minute.
Proof.
  split; [|split; reflexivity].
  unfold StartHost. rewrite events_bind, collect_app.
  destruct (acquireMachinesLock_spec (config.Name cfg) hist) as [-> _].
  destruct (result env (acquireMachinesLock (config.Name cfg)) hist) as [[releaser err]|];
    [|reflexivity].
  cbn [app]. f_equal. apply collect_avoided. apply (avoids_run Obs.isAcquire).
  pose proof createHost_avoids_acquire. pose proof configureHost_avoids_acquire.
  avoid.
Qed.

End Lock.

Section Succeeded.

Context {K : Consts}.
Variable env : Env.







End Succeeded.

Section Configure.

Context {K : Consts}.
Variable env : Env.


End Configure.

Section Gateway.

Context {K : Consts}.

(** C8.  The driver kinds of the cases of [GetVMHostIP] being distinct (Go
    rejects a switch with a repeated constant), [GetVMHostIP] returns
    192.168.39.1 for KVM2 and 192.168.64.1 for HyperKit, in both cases
    without a single call to a collaborator, and for every kind outside its
    cases it returns the unsupported-driver error, again without a call. *)
Theorem GetVMHostIP_fixed_gateways (env : Env) (hist : trace) (h : host.Host) :
  NoDup strategyKinds ->
  (host.DriverName h = KVM2 ->
     exec env (GetVMHostIP h) hist = ([], Returned (Go.IPv4 192 168 39 1, None)))
  /\ (host.DriverName h = HyperKit ->
     exec env (GetVMHostIP h) hist = ([], Returned (Go.IPv4 192 168 64 1, None)))
  /\ (~ In (host.DriverName h) strategyKinds ->
     exec env (GetVMHostIP h) hist
       = ([], Returned (Some [],
                        Some (New "Error, attempted to get host ip address for unsupported driver")))).
Proof.
  unfold strategyKinds. intro D.
  repeat match goal with
         | H : NoDup (_ :: _) |- _ => apply NoDup_cons_iff in H; destruct H
         end.
  cbn [In] in *.
  unfold GetVMHostIP. repeat split.
  - intros ->. now rewrite String.eqb_refl.
  - intros ->.
    replace (HyperKit =? KVM2)%string with false
      by (symmetry; apply String.eqb_neq; intuition congruence).
    replace (HyperKit =? HyperV)%string with false
      by (symmetry; apply String.eqb_neq; intuition congruence).
    replace (HyperKit =? VirtualBox)%string with false
      by (symmetry; apply String.eqb_neq; intuition congruence).
    now rewrite String.eqb_refl.
  - intro N.
    repeat match goal with
           | |- context [(host.DriverName h =? ?k)%string] =>
               replace (host.DriverName h =? k)%string with false
                 by (symmetry; apply String.eqb_neq; intuition congruence)
           end.
    reflexivity.
Qed.

End Gateway.

(** C10 (amended).  [getIPForInterface] ignores the errors of the interface
    lookup and of the address enumeration and does not dereference the
    handle itself: it hands whatever handle the lookup gave, absent or not,
    to the enumeration, and returns the first IPv4 address of an [IPNet]
    among the addresses enumerated, or else the address-not-found error.
    It never panics. *)
Theorem getIPForInterface_ignores_lookup (env : Env) (name : string) (hist : trace) :
  let lookup := env _ hist (InterfaceByName name) in
  let listing := env _ (hist ++ [Ev (InterfaceByName name) lookup]) (InterfaceAddrs (fst lookup)) in
  exec env (getIPForInterface name) hist =
    ([Ev (InterfaceByName name) lookup; Ev (InterfaceAddrs (fst lookup)) listing],
     Returned match firstIPv4 (fst listing) with
              | Some ip => (Some ip, None)
              | None => (None, Some (New ("Error finding IPV4 address for " ++ name)))
              end).
Proof.
  intros lookup listing. subst listing lookup. unfold getIPForInterface, perform.
  cbn [bind exec fst snd].
  destruct (env _ hist (InterfaceByName name)) as [i e]. cbn [bind exec fst snd].
  destruct (env _ _ (InterfaceAddrs i)) as [addrs e']. cbn [fst snd].
  destruct (firstIPv4 addrs); reflexivity.
Qed.

(** C3.  When the measurement gives the delta [d]: if its absolute value is
    strictly below 2.1 seconds the only command sent to the guest is the
    clock query; otherwise exactly one more command is sent, the correction,
    and it carries the whole epoch second of the local clock as read for the
    correction. *)
Theorem clock_correction_boundary (env : Env) (h : host.Host) (hist : trace) (d : Go.Duration) :
  let now := env _ hist TimeNow in
  let run := events env (ensureSyncedGuestClock h) hist in
  result env (guestClockDelta h now) (hist ++ [Ev TimeNow now]) = Returned (d, None) ->
  ((Qabs (Go.Seconds d) < maxClockDesyncSeconds)%Q ->
     Obs.collect Obs.sshCommand run = [Obs.dateQuery])
  /\ ((maxClockDesyncSeconds <= Qabs (Go.Seconds d))%Q ->
     exists local : Go.Time,
       Obs.collect Obs.timeSample run = [now; local]
       /\ Obs.collect Obs.sshCommand run = [Obs.dateQuery; Obs.dateSet local]).
Proof.
  intros now run M. subst run.
  pose proof (ensureSyncedGuestClock_run env h hist) as R. cbv zeta in R. fold now in R.
  rewrite M in R. split.
  - intro T. apply withinTolerance_spec in T. rewrite T in R. apply R.
  - intro T. destruct (withinTolerance d) eqn:W.
    + apply withinTolerance_spec in W. exfalso. exact (Qlt_not_le _ _ W T).
    + destruct R as (local & failure & Ht & Hc & _). exists local. auto.
Qed.

Lemma clock_correction_boundary_witness :
  let env := Sample.world "1579999997.800000000" in
  let h := Sample.machine "minikube" "virtualbox" in
  let now := env _ [] TimeNow in
  let run := events env (ensureSyncedGuestClock h) [] in
  result env (guestClockDelta h now) ([] ++ [Ev TimeNow now]) = Returned (-2200000000, None)
  /\ ((Qabs (Go.Seconds (-2200000000)%Z) < maxClockDesyncSeconds)%Q ->
        Obs.collect Obs.sshCommand run = [Obs.dateQuery])
  /\ ((maxClockDesyncSeconds <= Qabs (Go.Seconds (-2200000000)%Z))%Q ->
        exists local : Go.Time,
          Obs.collect Obs.timeSample run = [now; local]
          /\ Obs.collect Obs.sshCommand run = [Obs.dateQuery; Obs.dateSet local]).
Proof.
  intros env h now run. split.
  - vm_compute. reflexivity.
  - apply (clock_correction_boundary env h [] (-2200000000)). vm_compute. reflexivity.
Defined.

(** C4.  The guest answers the clock query with whole seconds only: the
    output has no fraction to index and [ensureSyncedGuestClock] panics
    instead of returning. *)
Theorem ensureSyncedGuestClock_whole_seconds_panics :
  Go.Split (Go.TrimSpace Sample.wholeSeconds) "." = ["1580000000"]
  /\ result (Sample.world Sample.wholeSeconds)
       (ensureSyncedGuestClock (Sample.machine "minikube" "virtualbox")) [] = Panicked.
Proof. split; vm_compute; reflexivity. Qed.

Section DeleteClaims.

Context {K : Consts}.
Variable env : Env.

(** C5.  When the status [DeleteHost] asks for is that of [state.None],
    [DeleteHost] returns [ErrHostDoesNotExist] for the machine and its run
    contains neither the backend remove nor the store remove. *)
Theorem DeleteHost_nonexistent (hist : trace) (machineName status : string) (failure : error) :
  result env (GetHostStatus machineName) (hist ++ events env (loadOrCleanUp machineName) hist)
    = Returned (status, failure) ->
  status = state.String state.None ->
  result env (DeleteHost machineName) hist = Returned (Some (ErrHostDoesNotExist machineName))
  /\ existsb Obs.isRemove (events env (DeleteHost machineName) hist) = false.
Proof.
  intros S N. exact (proj1 (DeleteHost_after_status env hist machineName status failure S) N).
Qed.

(** C9.  When the load of [DeleteHost] gives an error and no host, what
    follows depends on the status alone: for every status other than that of
    [state.None] the absent host is dereferenced and [DeleteHost] panics
    (before any remove), and for the status of [state.None] it returns
    [ErrHostDoesNotExist]. *)
Theorem DeleteHost_absent_host_dereferenced (hist : trace) (machineName status : string)
    (cause : err) (failure : error) :
  env _ hist (ApiLoad machineName) = (None, Some cause) ->
  result env (GetHostStatus machineName) (hist ++ events env (loadOrCleanUp machineName) hist)
    = Returned (status, failure) ->
  (status <> state.String state.None ->
     result env (DeleteHost machineName) hist = Panicked
     /\ existsb Obs.isRemove (events env (DeleteHost machineName) hist) = false)
  /\ (status = state.String state.None ->
     result env (DeleteHost machineName) hist
       = Returned (Some (ErrHostDoesNotExist machineName))).
Proof.
  intros L S. destruct (DeleteHost_after_status env hist machineName status failure S) as [A B].
  split.
  - intro N. apply B; [exact N|]. now rewrite L.
  - intro N. now apply A.
Qed.

End DeleteClaims.

#[local] Existing Instance Sample.consts.

Lemma DeleteHost_nonexistent_witness :
  let env := Sample.absent (Sample.world Sample.inSync) in
  result env (GetHostStatus "minikube") ([] ++ events env (loadOrCleanUp "minikube") [])
    = Returned ("", None)
  /\ "" = state.String state.None
  /\ result env (DeleteHost "minikube") [] = Returned (Some (ErrHostDoesNotExist "minikube"))
  /\ existsb Obs.isRemove (events env (DeleteHost "minikube") []) = false.
Proof.
  intro env. split; [vm_compute; reflexivity|]. split; [reflexivity|].
  apply (DeleteHost_nonexistent env [] "minikube" "" None); vm_compute; reflexivity.
Defined.

Lemma DeleteHost_absent_host_dereferenced_witness :
  let env := Sample.firstLoadFails (Sample.world Sample.inSync) in
  let cause := Opaque "open config.json: no such file or directory" in
  env _ [] (ApiLoad "minikube") = (None, Some cause)
  /\ result env (GetHostStatus "minikube") ([] ++ events env (loadOrCleanUp "minikube") [])
       = Returned ("Running", None)
  /\ "Running" <> state.String state.None
  /\ result env (DeleteHost "minikube") [] = Panicked.
Proof.
  intros env cause.
  assert (L : env _ [] (ApiLoad "minikube") = (None, Some cause)) by (vm_compute; reflexivity).
  assert (S : result env (GetHostStatus "minikube")
                ([] ++ events env (loadOrCleanUp "minikube") []) = Returned ("Running", None))
    by (vm_compute; reflexivity).
  assert (N : "Running" <> state.String state.None) by discriminate.
  split; [exact L|]. split; [exact S|]. split; [exact N|].
  exact (proj1 (proj1 (DeleteHost_absent_host_dereferenced env [] "minikube" "Running"
                         cause None L S) N)).
Defined.

Lemma StopHost_stop_failure_witness :
  let env := Sample.alreadyStopped (Sample.world Sample.inSync) in
  let cause := ErrHostAlreadyInState "minikube" state.Stopped in
  Obs.collect Obs.viperString (events env StopHost []) = ["minikube"]
  /\ Obs.collect Obs.stopAnswer (events env StopHost []) = [Some cause]
  /\ result env StopHost [] = Returned None.
Proof.
  intros env cause. split; [vm_compute; reflexivity|]. split; [vm_compute; reflexivity|].
  apply (StopHost_stop_failure env [] "minikube" cause); vm_compute; reflexivity.
Defined.

Lemma GetVMHostIP_fixed_gateways_witness :
  NoDup strategyKinds
  /\ exec (Sample.world Sample.inSync) (GetVMHostIP (Sample.machine "minikube" "hyperkit")) []
       = ([], Returned (Go.IPv4 192 168 64 1, None)).
Proof.
  assert (D : NoDup strategyKinds).
  { unfold strategyKinds. repeat constructor; cbn; intuition discriminate. }
  split; [exact D|].
  apply (GetVMHostIP_fixed_gateways (Sample.world Sample.inSync) []
           (Sample.machine "minikube" "hyperkit") D).
  reflexivity.
Defined.

(** C10, as stated, fails: the lookup of the interface fails, and
    [getIPForInterface] returns its address-not-found error. *)
Lemma getIPForInterface_lookup_failure_reaches_error :
  let env := Sample.noInterface (Sample.world Sample.inSync) in
  nonnil (snd (env _ [] (InterfaceByName "eth9"))) = true
  /\ result env (getIPForInterface "eth9") []
       = Returned (None, Some (New "Error finding IPV4 address for eth9")).
Proof. split; vm_compute; reflexivity. Qed.





(** * Further properties *)

(** ** Further tools for following a run *)

Lemma exec_bind_assoc {A B C : Type} (env : Env) (p : prog A) (k : A -> prog B)
    (k' : B -> prog C) (hist : trace) :
  exec env (bind (bind p k) k') hist = exec env (bind p (fun x => bind (k x) k')) hist.
Proof.
  revert hist. induction p as [a| |T c j IH]; intro hist; cbn [bind exec]; [reflexivity..|].
  now rewrite IH.
Qed.

Ltac go_deep env known :=
  repeat first [progress simp | earliest env | branch
               | rewrite (exec_bind_assoc env) | skip_call env known].

Ltac collected :=
  intros;
  repeat match goal with H : _ /\ _ |- _ => destruct H end;
  cbn [fst snd] in *;
  repeat match goal with
         | H : Obs.collect _ _ = _ :: _ |- _ => revert H
         end;
  repeat (progress rewrite ?collect_cons, ?collect_app, ?collect_nil);
  repeat match goal with H : Obs.collect _ _ = [] |- _ => rewrite H; clear H end;
  cbn.

Lemma avoided_collect {A B : Type} (f : event -> option B) (env : Env) (p : prog A)
    (hist : trace) :
  avoids (fun e => nonnil (f e)) p -> Obs.collect f (events env p hist) = [].
Proof. intro H. apply collect_avoided. now apply avoids_run. Qed.


(** ** The clock synchroniser *)

(** X1.  A measurement that ends in an error, whether the query failed or
    its output did not parse, is advisory: [ensureSyncedGuestClock] returns
    no error and sends nothing but the query. *)
Theorem measurement_failure_is_advisory (env : Env) (h : host.Host) (hist : trace)
    (d : Go.Duration) (cause : err) :
  let now := env _ hist TimeNow in
  result env (guestClockDelta h now) (hist ++ [Ev TimeNow now]) = Returned (d, Some cause) ->
  result env (ensureSyncedGuestClock h) hist = Returned None
  /\ Obs.collect Obs.sshCommand (events env (ensureSyncedGuestClock h) hist) = [Obs.dateQuery].
Proof.
  intros now M. pose proof (ensureSyncedGuestClock_run env h hist) as R.
  cbv zeta in R. fold now in R. rewrite M in R. exact R.
Qed.

Lemma measurement_failure_is_advisory_witness :
  let env := Sample.world "1580000000.%N" in
  let h := Sample.machine "minikube" "virtualbox" in
  let now := env _ [] TimeNow in
  result env (guestClockDelta h now) ([] ++ [Ev TimeNow now])
    = Returned (0, Some (Wrap (NumError "ParseInt" "%N" Go.ErrSyntax) "atoi"))
  /\ result env (ensureSyncedGuestClock h) [] = Returned None
  /\ Obs.collect Obs.sshCommand (events env (ensureSyncedGuestClock h) []) = [Obs.dateQuery].
Proof.
  intros env h now.
  assert (M : result env (guestClockDelta h now) ([] ++ [Ev TimeNow now])
              = Returned (0, Some (Wrap (NumError "ParseInt" "%N" Go.ErrSyntax) "atoi")))
    by (vm_compute; reflexivity).
  split; [exact M|].
  exact (measurement_failure_is_advisory env h [] 0 _ M).
Defined.

(** X2.  When the measured delta is out of tolerance, the outcome of
    [ensureSyncedGuestClock] is that of the correction command: its error,
    if any, is returned with the context "adjusting system clock", and no
    error is returned when it succeeds.  The correction is sent once and not
    retried. *)
Theorem correction_failure_is_returned (env : Env) (h : host.Host) (hist : trace)
    (d : Go.Duration) :
  let now := env _ hist TimeNow in
  let run := events env (ensureSyncedGuestClock h) hist in
  result env (guestClockDelta h now) (hist ++ [Ev TimeNow now]) = Returned (d, None) ->
  withinTolerance d = false ->
  exists failure : error,
    Obs.collect Obs.sshError run = [None; failure]
    /\ result env (ensureSyncedGuestClock h) hist
         = Returned (errors_Wrap failure "adjusting system clock").
Proof.
  intros now run M W. subst run. pose proof (ensureSyncedGuestClock_run env h hist) as R.
  cbv zeta in R. fold now in R. rewrite M, W in R.
  destruct R as (local & failure & _ & _ & E & R). exists failure. auto.
Qed.

Lemma correction_failure_is_returned_witness :
  let env := Sample.dateSetFails (Sample.world "1580000003.000000000") in
  let h := Sample.machine "minikube" "virtualbox" in
  let now := env _ [] TimeNow in
  result env (guestClockDelta h now) ([] ++ [Ev TimeNow now]) = Returned (3000000000, None)
  /\ withinTolerance 3000000000 = false
  /\ result env (ensureSyncedGuestClock h) []
       = Returned (Some (Wrap (Opaque "exit status 1") "adjusting system clock"))
  /\ exists failure : error,
       Obs.collect Obs.sshError (events env (ensureSyncedGuestClock h) []) = [None; failure]
       /\ result env (ensureSyncedGuestClock h) []
            = Returned (errors_Wrap failure "adjusting system clock").
Proof.
  intros env h now.
  assert (M : result env (guestClockDelta h now) ([] ++ [Ev TimeNow now])
              = Returned (3000000000, None)) by (vm_compute; reflexivity).
  assert (W : withinTolerance 3000000000 = false) by (vm_compute; reflexivity).
  split; [exact M|]. split; [exact W|]. split; [vm_compute; reflexivity|].
  exact (correction_failure_is_returned env h [] 3000000000 M W).
Defined.

Lemma splitFrom_nonempty (sep s : string) (skip : nat) (acc : string) :
  Go.splitFrom sep s skip acc <> [].
Proof.
  revert skip acc. induction s as [|c s IH]; intros skip acc; cbn [Go.splitFrom].
  - congruence.
  - destruct skip; [|apply IH]. destruct (prefix sep (String c s)); [congruence|apply IH].
Qed.

(** X3.  [guestClockDelta] panics in one case only: the query succeeded, its
    output (trimmed) has no '.', and the output parses as an integer. *)
Theorem guestClockDelta_panics_iff (env : Env) (h : host.Host) (local : Go.Time) (hist : trace) :
  let answer := env _ hist (HostRunSSHCommand h Obs.dateQuery) in
  result env (guestClockDelta h local) hist = Panicked
  <-> snd answer = None
      /\ exists whole : string,
           Go.Split (Go.TrimSpace (fst answer)) "." = [whole]
           /\ snd (strconv_ParseInt (Go.TrimSpace whole)) = None.
Proof.
  intro answer. subst answer. unfold guestClockDelta, Obs.dateQuery.
  unfold result, perform, glog_Infof. cbn [bind exec fst snd].
  destruct (env _ hist (HostRunSSHCommand h "date +%s.%N")) as [out [e|]]; cbn [fst snd nonnil exec bind].
  - split; [discriminate|]. intros [E _]. discriminate E.
  - pose proof (splitFrom_nonempty "." (Go.TrimSpace out) 0 "") as NE.
    fold (Go.Split (Go.TrimSpace out) ".") in NE.
    destruct (Go.Split (Go.TrimSpace out) ".") as [|ns0 [|ns1 rest]]; [congruence| |].
    + unfold index. cbn [nth_error bind exec fst snd].
      destruct (strconv_ParseInt (Go.TrimSpace ns0)) as [secs [e|]] eqn:PI;
        cbn [nonnil bind exec fst snd nth_error].
      * split; [discriminate|]. intros [_ [w [E P]]]. injection E as <-.
        rewrite PI in P. discriminate P.
      * split; [|reflexivity]. intros _. split; [reflexivity|]. exists ns0.
        rewrite PI. auto.
    + unfold index. cbn [nth_error bind exec fst snd].
      destruct (strconv_ParseInt (Go.TrimSpace ns0)) as [secs [e|]];
        cbn [nonnil bind exec fst snd nth_error].
      * split; [discriminate|]. intros [_ [w [E P]]]. discriminate E.
      * destruct (strconv_ParseInt (Go.TrimSpace ns1)) as [nsecs [e|]];
          cbn [nonnil bind exec fst snd];
          (split; [discriminate|]; intros [_ [w [E P]]]; discriminate E).
Qed.




(** ** The machines lock *)

Section LockRelease.

Context {K : Consts}.
Variable env : Env.

Lemma createHost_avoids_release (cfg : config.MachineConfig) :
  avoids (fun e => nonnil (Calls.release e)) (createHost cfg).
Proof.
  unfold createHost, showHostInfo, getHostInfo, createRequiredDirectories, commandRunner,
    showLocalOsRelease, showRemoteOsRelease, ensureSyncedGuestClock, guestClockDelta,
    adjustGuestClock.
  avoid.
Qed.

Lemma configureHost_avoids_release (h : host.Host) (e : engine.Options) :
  avoids (fun e => nonnil (Calls.release e)) (configureHost h e).
Proof.
  unfold configureHost, createRequiredDirectories, commandRunner,
    ensureSyncedGuestClock, guestClockDelta, adjustGuestClock.
  avoid.
Qed.

Lemma acquireMachinesLock_answer (name : string) (hist : trace) :
  exists (r : mutex.Releaser) (failure : error),
    result env (acquireMachinesLock name) hist = Returned (r, failure)
    /\ Obs.collect Calls.acquireAnswer (events env (acquireMachinesLock name) hist)
         = [(r, failure)]
    /\ Obs.collect Calls.release (events env (acquireMachinesLock name) hist) = []
    /\ existsb Calls.isBackend (events env (acquireMachinesLock name) hist) = false.
Proof.
  unfold acquireMachinesLock. run env.
  all: eexists; eexists; repeat split.
Qed.

Lemma last_of_four (s t : trace) (a b c d : event) :
  s ++ a :: t ++ [b; c; d] = (s ++ a :: t ++ [b; c]) ++ [d].
Proof.
  rewrite <- app_assoc. cbn [app]. rewrite <- app_assoc. reflexivity.
Qed.

(** X5.  [StartHost] asks for the lock once.  When it gets it, it releases
    it exactly once, as the very last thing it does, whatever happens in
    between: success, failure or panic.  When it does not get it, it
    releases nothing. *)
Theorem StartHost_releases_lock (cfg : config.MachineConfig) (hist : trace) :
  let run := events env (StartHost cfg) hist in
  exists (r : mutex.Releaser) (failure : error),
    Obs.collect Calls.acquireAnswer run = [(r, failure)]
    /\ Obs.collect Calls.release run = (if nonnil failure then [] else [r])
    /\ (failure = None -> exists before a, run = before ++ [Ev (Release r) a]).
Proof.
  intro run. subst run. unfold StartHost.
  destruct (acquireMachinesLock_answer (config.Name cfg) hist) as (r & failure & R & A & L & _).
  exists r, failure.
  rewrite events_bind, R, !collect_app, A, L.
  destruct failure as [cause|]; cbn [nonnil].
  - repeat split; try reflexivity. discriminate.
  - unfold time_Now, perform. cbn [bind]. rewrite events_Do.
    match goal with |- context [defer _ ?b] => set (body := b) end.
    rewrite events_defer.
    assert (BR : avoids (fun e => nonnil (Calls.release e)) body).
    { subst body. pose proof createHost_avoids_release. pose proof configureHost_avoids_release.
      avoid. }
    assert (BA : avoids Obs.isAcquire body).
    { subst body. pose proof createHost_avoids_acquire. pose proof configureHost_avoids_acquire.
      avoid. }
    set (hist1 := (hist ++ _) ++ _).
    pose proof (collect_avoided Calls.release _ (avoids_run _ body env hist1 BR)) as CR.
    pose proof (avoids_run _ body env hist1 BA) as CA.
    set (evs := events env body hist1) in *.
    assert (CA' : Obs.collect Calls.acquireAnswer evs = []).
    { clear - CA. induction evs as [|e evs IH]; [reflexivity|].
      cbn [existsb] in CA. apply orb_false_iff in CA. destruct CA as [C1 C2].
      rewrite collect_cons, IH by assumption.
      destruct e as [T c a]. destruct c; try reflexivity. discriminate C1. }
    unfold time_Since, time_Now, glog_Infof, perform. cbn [bind].
    rewrite !events_Do. cbn [events exec fst].
    repeat split.
    + rewrite !collect_cons, !collect_app, CA'. reflexivity.
    + rewrite !collect_cons, !collect_app, CR. reflexivity.
    + intros _. eexists. eexists. apply last_of_four.
Qed.

(** X6.  When the lock cannot be acquired, [StartHost] returns the error of
    the acquisition with the context "boot lock", and touches neither the
    store nor any machine. *)
Theorem StartHost_boot_lock (cfg : config.MachineConfig) (hist : trace)
    (r : mutex.Releaser) (cause : err) :
  Obs.collect Calls.acquireAnswer (events env (StartHost cfg) hist) = [(r, Some cause)] ->
  result env (StartHost cfg) hist = Returned (None, Some (Wrap cause "boot lock"))
  /\ existsb Calls.isBackend (events env (StartHost cfg) hist) = false.
Proof.
  unfold StartHost.
  destruct (acquireMachinesLock_answer (config.Name cfg) hist) as (r' & failure & R & A & L & B).
  rewrite events_bind, result_bind, R, !collect_app, A, existsb_app, B.
  destruct failure as [cause'|]; cbn [nonnil].
  - cbn. intro E. injection E as -> ->. auto.
  - intro E. cbn [app] in E. congruence.
Qed.

End LockRelease.

Lemma StartHost_boot_lock_witness :
  let env := SampleX.lockTimesOut (Sample.world Sample.inSync) in
  let cfg := Sample.cfg "virtualbox" [] in
  Obs.collect Calls.acquireAnswer (events env (StartHost cfg) [])
    = [("", Some (Opaque "timeout acquiring mutex"))]
  /\ result env (StartHost cfg) []
       = Returned (None, Some (Wrap (Opaque "timeout acquiring mutex") "boot lock"))
  /\ existsb Calls.isBackend (events env (StartHost cfg) []) = false.
Proof.
  intros env cfg.
  assert (A : Obs.collect Calls.acquireAnswer (events env (StartHost cfg) [])
              = [("", Some (Opaque "timeout acquiring mutex"))]) by (vm_compute; reflexivity).
  split; [exact A|].
  exact (StartHost_boot_lock env cfg [] "" _ A).
Defined.


(** ** Status, stop and delete *)

Section Status.

Context {K : Consts}.
Variable env : Env.

Lemma GetHostStatus_avoids_others (machineName : string) :
  avoids Calls.isNotStatusQuery (GetHostStatus machineName).
Proof. unfold GetHostStatus. avoid. Qed.

Lemma GetHostStatus_status_shape (machineName : string) (hist : trace) :
  completes (fun r => match snd r with
                      | Some _ => fst r = ""
                      | None => exists s, fst r = state.String s
                      end)
    (result env (GetHostStatus machineName) hist).
Proof.
  unfold GetHostStatus. run env. all: cbn; eauto.
  exists state.None. reflexivity.
Qed.

(** X7.  [GetHostStatus] only asks: its calls are [api.Exists], [api.Load]
    and [GetState], nothing else.  The status it returns next to an error is
    the empty string, and next to no error the string of a state. *)
Theorem GetHostStatus_only_asks (machineName : string) (hist : trace) :
  existsb Calls.isNotStatusQuery (events env (GetHostStatus machineName) hist) = false
  /\ completes (fun r => match snd r with
                         | Some _ => fst r = ""
                         | None => exists s, fst r = state.String s
                         end)
       (result env (GetHostStatus machineName) hist).
Proof.
  split; [apply avoids_run, GetHostStatus_avoids_others|].
  apply GetHostStatus_status_shape.
Qed.

Lemma GetHostStatus_failure_status (machineName status : string) (cause : err) (hist : trace) :
  result env (GetHostStatus machineName) hist = Returned (status, Some cause) -> status = "".
Proof.
  intro R. pose proof (GetHostStatus_status_shape machineName hist) as C.
  rewrite R in C. exact C.
Qed.

(** X8.  [DeleteHost] cannot tell a status query that failed from a machine
    that does not exist: when [GetHostStatus] returns an error, the status
    is the empty string, which is the string of [state.None], and
    [DeleteHost] returns [ErrHostDoesNotExist] and removes nothing. *)
Theorem DeleteHost_status_failure (hist : trace) (machineName status : string) (cause : err) :
  result env (GetHostStatus machineName) (hist ++ events env (loadOrCleanUp machineName) hist)
    = Returned (status, Some cause) ->
  result env (DeleteHost machineName) hist = Returned (Some (ErrHostDoesNotExist machineName))
  /\ existsb Obs.isRemove (events env (DeleteHost machineName) hist) = false.
Proof.
  intro S. pose proof (GetHostStatus_failure_status _ _ _ _ S) as E.
  apply (proj1 (DeleteHost_after_status env hist machineName status (Some cause) S)).
  rewrite E. reflexivity.
Qed.

(** X9.  [trySSHPowerOff] returns exactly the error of [GetState]: the
    outcome of the power-off command is never returned.  It sends the
    command when, and only when, the state was read and is [Running]. *)
Theorem trySSHPowerOff_outcome (h : host.Host) (hist : trace) :
  let answer := env _ hist (DriverGetState (host.Driver h)) in
  result env (trySSHPowerOff h) hist = Returned (snd answer)
  /\ Obs.collect Obs.sshCommand (events env (trySSHPowerOff h) hist)
       = (if negb (nonnil (snd answer)) && state.eqb (fst answer) state.Running
          then ["sudo poweroff"] else []).
Proof.
  unfold trySSHPowerOff. run env. all: cbn [fst snd nonnil negb andb]; try rewrite Heqb; auto.
Qed.

End Status.

Lemma DeleteHost_status_failure_witness :
  let env := SampleX.loadFails (Sample.world Sample.inSync) in
  let cause := Wrap (Opaque "open config.json: permission denied") "load" in
  result env (GetHostStatus "minikube") ([] ++ events env (loadOrCleanUp "minikube") [])
    = Returned ("", Some cause)
  /\ result env (DeleteHost "minikube") [] = Returned (Some (ErrHostDoesNotExist "minikube"))
  /\ existsb Obs.isRemove (events env (DeleteHost "minikube") []) = false.
Proof.
  intros env cause.
  assert (S : result env (GetHostStatus "minikube")
                ([] ++ events env (loadOrCleanUp "minikube") []) = Returned ("", Some cause))
    by (vm_compute; reflexivity).
  split; [exact S|].
  exact (DeleteHost_status_failure env [] "minikube" "" cause S).
Defined.


Section Removal.

Context {K : Consts}.
Variable env : Env.

Lemma trySSHPowerOff_avoids_remove (h : host.Host) :
  avoids (fun e => Obs.isRemove e || nonnil (Calls.execRun e)) (trySSHPowerOff h).
Proof. unfold trySSHPowerOff. avoid. Qed.

Lemma GetHostStatus_avoids_remove (machineName : string) :
  avoids (fun e => Obs.isRemove e || nonnil (Calls.execRun e)) (GetHostStatus machineName).
Proof. unfold GetHostStatus. avoid. Qed.

Lemma no_remove_collect (evs : trace) :
  existsb (fun e => Obs.isRemove e || nonnil (Calls.execRun e)) evs = false ->
  Obs.collect Calls.driverRemoveAnswer evs = []
  /\ Obs.collect Calls.storeRemoveAnswer evs = []
  /\ Obs.collect Calls.execRun evs = [].
Proof.
  induction evs as [|e evs IH]; [auto|]. cbn [existsb]. intro H.
  apply orb_false_iff in H. destruct H as [H1 H2]. destruct (IH H2) as (A & B & C).
  rewrite !collect_cons, A, B, C. destruct e as [T c a].
  destruct c; cbn in *; auto; discriminate.
Qed.

Ltac known_delete q h :=
  lazymatch q with
  | GetHostStatus ?n =>
      generalize (no_remove_collect _ (avoids_run _ _ env h (GetHostStatus_avoids_remove n)));
      unfold events, result
  | trySSHPowerOff ?x =>
      generalize (no_remove_collect _ (avoids_run _ _ env h (trySSHPowerOff_avoids_remove x)));
      unfold events, result
  | _ => idtac
  end.

(** X10.  [DeleteHost] removes in a fixed order and stops at the first
    failure: the store remove is called only after a backend remove that
    succeeded, each is called at most once, and the error returned is that
    of the remove that failed, with the context "host remove" or
    "api remove". *)
Theorem DeleteHost_removes_in_order (machineName : string) (hist : trace) :
  let run := events env (DeleteHost machineName) hist in
  match Obs.collect Calls.driverRemoveAnswer run, Obs.collect Calls.storeRemoveAnswer run with
  | [], [] => True
  | [Some cause], [] =>
      result env (DeleteHost machineName) hist = Returned (Some (Wrap cause "host remove"))
  | [None], [answer] =>
      result env (DeleteHost machineName) hist = Returned (errors_Wrap answer "api remove")
  | _, _ => False
  end.
Proof.
  intro run. subst run. unfold DeleteHost, deleteOrphanedKIC.
  go_deep env known_delete.
  all: collected; auto.
Qed.

(** X11.  The orphan clean-up of [DeleteHost], [docker rm -f -v <name>], is
    run exactly when the load gave an error and no host; nothing else in
    [DeleteHost] runs a local command. *)
Theorem DeleteHost_orphan_cleanup (machineName : string) (hist : trace) :
  let load := env _ hist (ApiLoad machineName) in
  Obs.collect Calls.execRun (events env (DeleteHost machineName) hist)
    = (if nonnil (snd load) && negb (nonnil (fst load))
       then [[oci_Docker; "rm"; "-f"; "-v"; machineName]]
       else []).
Proof.
  intro load. subst load. unfold DeleteHost, deleteOrphanedKIC.
  go_deep env known_delete.
  all: collected; auto.
Qed.

End Removal.

Section Stopping.

Context {K : Consts}.
Variable env : Env.

(** X12.  When the store cannot load the machine, [StopHost] returns the
    error with the context "load" and goes no further: no state is read, no
    command is sent and the backend stop is not called. *)
Theorem StopHost_load_failure (hist : trace) (h : option host.Host) (cause : err) :
  let run := events env StopHost hist in
  Obs.collect Calls.loadAnswer run = [(h, Some cause)] ->
  result env StopHost hist = Returned (Some (Wrap cause "load"))
  /\ Obs.collect Obs.stopAnswer run = []
  /\ Obs.collect Obs.sshCommand run = []
  /\ Obs.collect Calls.stateAnswer run = [].
Proof.
  intro run. subst run. unfold StopHost, trySSHPowerOff.
  run env.
  all: cbn; intro L; try discriminate L.
  all: injection L as -> ->; auto.
Qed.


End Stopping.

Lemma StopHost_load_failure_witness :
  let env := SampleX.loadFails (Sample.world Sample.inSync) in
  let cause := Opaque "open config.json: permission denied" in
  Obs.collect Calls.loadAnswer (events env StopHost []) = [(None, Some cause)]
  /\ result env StopHost [] = Returned (Some (Wrap cause "load"))
  /\ Obs.collect Obs.stopAnswer (events env StopHost []) = []
  /\ Obs.collect Obs.sshCommand (events env StopHost []) = []
  /\ Obs.collect Calls.stateAnswer (events env StopHost []) = [].
Proof.
  intros env cause.
  assert (L : Obs.collect Calls.loadAnswer (events env StopHost []) = [(None, Some cause)])
    by (vm_compute; reflexivity).
  split; [exact L|].
  exact (StopHost_load_failure env [] None cause L).
Defined.



(** ** Looking a machine up *)

Section LookingUp.

Context {K : Consts}.
Variable env : Env.
Variable DefaultBindIPV4 : string.
Variable Quote : string -> string.


(** X15.  [GetHostDriverIP] returns an address or an error, never both and
    never neither.  The only panic is on a store that loads no host and
    reports no error. *)
Theorem GetHostDriverIP_address_or_error (machineName : string) (hist : trace) :
  let run := events env (GetHostDriverIP DefaultBindIPV4 Quote machineName) hist in
  match result env (GetHostDriverIP DefaultBindIPV4 Quote machineName) hist with
  | Returned (ip, e) => nonnil ip = negb (nonnil e)
  | Panicked => Obs.collect Calls.loadAnswer run = [(None, None)]
  end.
Proof.
  unfold GetHostDriverIP, CheckIfHostExistsAndLoad. run env.
  all: cbn; auto.
  all: rewrite Heqi; reflexivity.
Qed.

(** X16.  For a machine of a container kind, [GetHostDriverIP] still asks the
    driver for the address and still returns the driver's error, but on
    success it discards the driver's answer: the address returned is
    [kic.DefaultBindIPV4], whatever the driver said. *)
Theorem GetHostDriverIP_kic (machineName : string) (hist : trace) (h : host.Host) :
  let run := events env (GetHostDriverIP DefaultBindIPV4 Quote machineName) hist in
  Obs.collect Calls.loadAnswer run = [(Some h, None)] ->
  IsKIC (host.DriverName h) = true ->
  match Obs.collect Calls.ipAnswer run with
  | [(_, Some cause)] =>
      result env (GetHostDriverIP DefaultBindIPV4 Quote machineName) hist
        = Returned (None, Some (Wrap cause "getting IP"))
  | [(_, None)] =>
      result env (GetHostDriverIP DefaultBindIPV4 Quote machineName) hist
        = Returned match net_ParseIP DefaultBindIPV4 with
                   | Some ip => (Some ip, None)
                   | None => (None, Some (New ("parsing IP: " ++ DefaultBindIPV4)))
                   end
  | _ => False
  end.
Proof.
  intro run. subst run. unfold GetHostDriverIP, CheckIfHostExistsAndLoad. run env.
  all: cbn; intro L; try discriminate L; injection L as <-; intro KIC.
  all: try reflexivity.
  all: rewrite KIC in *.
  all: try (rewrite Heqi; reflexivity).
Qed.

(** X17.  [IsHostRunning] answers true exactly when the state of the machine
    was read, without error, and is [Running]. *)
Theorem IsHostRunning_true_iff (name : string) (hist : trace) :
  let run := events env (IsHostRunning name) hist in
  result env (IsHostRunning name) hist = Returned true
  <-> Obs.collect Calls.stateAnswer run = [(state.Running, None)].
Proof.
  unfold IsHostRunning, GetHostStatus. run env.
  all: cbn; split; intro H; try discriminate H; try reflexivity.
  all: try (injection H as ->; discriminate).
  all: try destruct s; vm_compute in Heqb; first [congruence | reflexivity].
Qed.

End LookingUp.


(** ** Directories and configuration *)

Section Configuring.

Context {K : Consts}.
Variable env : Env.

(** X18.  [createRequiredDirectories] never panics.  It returns an error if
    and only if making the remote shell client or running the command
    failed; the only command it runs is [sudo mkdir -p] on the required
    directories; and on a mock machine it calls nothing but the log. *)
Theorem createRequiredDirectories_outcome (h : host.Host) (hist : trace) :
  let run := events env (createRequiredDirectories h) hist in
  exists e,
    result env (createRequiredDirectories h) hist = Returned e
    /\ nonnil e = existsb nonnil (Obs.collect Obs.directoryAnswer run)
    /\ (forall r argv, In (r, argv) (Obs.collect Calls.runCmd run) ->
          argv = "sudo" :: "mkdir" :: "-p" :: requiredDirectories)
    /\ (host.DriverName h = Mock -> existsb Calls.isBackend run = false).
Proof.
  unfold createRequiredDirectories, commandRunner. run env.
  all: cbn; eexists; split; [reflexivity|]; split; [reflexivity|]; split.
  all: try (intros r argv [E|[]]; now inversion E).
  all: try (intros r argv []).
  all: try reflexivity.
  all: intro M; rewrite M, String.eqb_refl in *; discriminate.
Qed.

Lemma createRequiredDirectories_avoids_auth (h : host.Host) :
  avoids (fun e => nonnil (Calls.authAnswer e)) (createRequiredDirectories h).
Proof. unfold createRequiredDirectories, commandRunner. avoid. Qed.

Lemma createRequiredDirectories_avoids_ssh (h : host.Host) :
  avoids (fun e => nonnil (Obs.sshCommand e)) (createRequiredDirectories h).
Proof. unfold createRequiredDirectories, commandRunner. avoid. Qed.

Lemma createRequiredDirectories_avoids_provision (h : host.Host) :
  avoids (fun e => nonnil (Obs.provisionCall e)) (createRequiredDirectories h).
Proof. unfold createRequiredDirectories, commandRunner. avoid. Qed.

Lemma createRequiredDirectories_avoids_detect (h : host.Host) :
  avoids (fun e => nonnil (Calls.detectCall e)) (createRequiredDirectories h).
Proof. unfold createRequiredDirectories, commandRunner. avoid. Qed.

Lemma ensureSyncedGuestClock_avoids_auth (h : host.Host) :
  avoids (fun e => nonnil (Calls.authAnswer e)) (ensureSyncedGuestClock h).
Proof. unfold ensureSyncedGuestClock, guestClockDelta, adjustGuestClock. avoid. Qed.

Lemma ensureSyncedGuestClock_avoids_provision (h : host.Host) :
  avoids (fun e => nonnil (Obs.provisionCall e)) (ensureSyncedGuestClock h).
Proof. unfold ensureSyncedGuestClock, guestClockDelta, adjustGuestClock. avoid. Qed.

Lemma ensureSyncedGuestClock_avoids_detect (h : host.Host) :
  avoids (fun e => nonnil (Calls.detectCall e)) (ensureSyncedGuestClock h).
Proof. unfold ensureSyncedGuestClock, guestClockDelta, adjustGuestClock. avoid. Qed.

Ltac known_configure q h :=
  lazymatch q with
  | createRequiredDirectories ?x =>
      generalize
        (avoided_collect Calls.authAnswer env _ h (createRequiredDirectories_avoids_auth x))
        (avoided_collect Obs.sshCommand env _ h (createRequiredDirectories_avoids_ssh x))
        (avoided_collect Obs.provisionCall env _ h (createRequiredDirectories_avoids_provision x))
        (avoided_collect Calls.detectCall env _ h (createRequiredDirectories_avoids_detect x));
      unfold events, result
  | ensureSyncedGuestClock ?x =>
      generalize
        (avoided_collect Calls.authAnswer env _ h (ensureSyncedGuestClock_avoids_auth x))
        (avoided_collect Obs.provisionCall env _ h (ensureSyncedGuestClock_avoids_provision x))
        (avoided_collect Calls.detectCall env _ h (ensureSyncedGuestClock_avoids_detect x));
      unfold events, result
  | _ => idtac
  end.

(** X19.  For a machine whose driver is bare metal, [configureHost] neither
    configures authentication nor sends a command to the guest: the clock
    is not synchronised. *)
Theorem configureHost_local_driver (h : host.Host) (e : engine.Options) (hist : trace) :
  let run := events env (configureHost h e) hist in
  BareMetal (drivers.DriverName (host.Driver h)) = true ->
  Obs.collect Calls.authAnswer run = [] /\ Obs.collect Obs.sshCommand run = [].
Proof.
  intros run B. subst run. unfold configureHost, set_EngineEnv. cbn [host.Driver].
  rewrite !B.
  go_deep env known_configure.
  all: collected; auto.
Qed.


(** X21.  [configureHost] writes one field of the host and no other: the
    environment of the engine options, set to that of [e] when [e] has one.
    With no environment in [e] the host is untouched and no provisioner is
    looked for or run. *)
Theorem configureHost_host (h : host.Host) (e : engine.Options) (hist : trace) :
  let run := events env (configureHost h e) hist in
  completes (fun r => fst r = match engine.Env e with
                             | [] => h
                             | _ :: _ => set_EngineEnv h (engine.Env e)
                             end)
    (result env (configureHost h e) hist)
  /\ (engine.Env e = [] ->
      Obs.collect Calls.detectCall run = [] /\ Obs.collect Obs.provisionCall run = []).
Proof.
  intro run. subst run. unfold configureHost.
  destruct (engine.Env e) as [|v vs] eqn:E; cbn [List.length Z.of_nat Z.ltb Z.compare].
  all: go_deep env known_configure.
  all: collected; split; auto; discriminate.
Qed.

End Configuring.


(** ** Creating and restarting a machine *)

Section Creating.

Context {K : Consts}.
Variable env : Env.

Lemma no_store_call (evs : trace) :
  existsb Calls.isStoreCall evs = false ->
  Obs.collect Calls.createCall evs = []
  /\ Obs.collect Calls.saveCall evs = []
  /\ Obs.collect Calls.sleep evs = []
  /\ Obs.collect Calls.newHostCall evs = []
  /\ Obs.collect Calls.registryAnswer evs = []
  /\ Obs.collect Calls.stateAnswer evs = []
  /\ Obs.collect Calls.startAnswer evs = [].
Proof.
  induction evs as [|e evs IH]; [cbn; auto 10|]. cbn [existsb]. intro H.
  apply orb_false_iff in H. destruct H as [H1 H2].
  destruct (IH H2) as (A & B & C & D & E & F & G).
  rewrite !collect_cons, A, B, C, D, E, F, G. destruct e as [T c a].
  destruct c; cbn in *; auto 10; discriminate.
Qed.

Lemma showHostInfo_avoids_store (cfg : config.MachineConfig) :
  avoids Calls.isStoreCall (showHostInfo cfg).
Proof. unfold showHostInfo, getHostInfo. avoid. Qed.

Lemma createRequiredDirectories_avoids_store (h : host.Host) :
  avoids Calls.isStoreCall (createRequiredDirectories h).
Proof. unfold createRequiredDirectories, commandRunner. avoid. Qed.

Lemma showLocalOsRelease_avoids_store : avoids Calls.isStoreCall showLocalOsRelease.
Proof. unfold showLocalOsRelease. avoid. Qed.

Lemma showRemoteOsRelease_avoids_store (d : drivers.Driver) :
  avoids Calls.isStoreCall (showRemoteOsRelease d).
Proof. unfold showRemoteOsRelease. avoid. Qed.

Lemma ensureSyncedGuestClock_avoids_store (h : host.Host) :
  avoids Calls.isStoreCall (ensureSyncedGuestClock h).
Proof. unfold ensureSyncedGuestClock, guestClockDelta, adjustGuestClock. avoid. Qed.

Ltac known_create q h :=
  lazymatch q with
  | showHostInfo ?x =>
      generalize (no_store_call _ (avoids_run _ _ env h (showHostInfo_avoids_store x)));
      unfold events, result
  | createRequiredDirectories ?x =>
      generalize (no_store_call _ (avoids_run _ _ env h (createRequiredDirectories_avoids_store x)));
      unfold events, result
  | showLocalOsRelease =>
      generalize (no_store_call _ (avoids_run _ _ env h showLocalOsRelease_avoids_store));
      unfold events, result
  | showRemoteOsRelease ?x =>
      generalize (no_store_call _ (avoids_run _ _ env h (showRemoteOsRelease_avoids_store x)));
      unfold events, result
  | ensureSyncedGuestClock ?x =>
      generalize (no_store_call _ (avoids_run _ _ env h (ensureSyncedGuestClock_avoids_store x)));
      unfold events, result
  | _ => idtac
  end.

(** X22.  A host that [createHost] returns was created, once and without
    error, and with no error beside it it was saved, once and without
    error.  A host returned beside an error, as when the clock could not be
    corrected, was not saved.  With no host there is always an error. *)
Theorem createHost_returns_saved (cfg : config.MachineConfig) (hist : trace) :
  let run := events env (createHost cfg) hist in
  match result env (createHost cfg) hist with
  | Returned (Some h, e) =>
      Obs.collect Calls.createCall run = [(h, None)]
      /\ Obs.collect Calls.saveCall run = (if nonnil e then [] else [(h, None)])
  | Returned (None, e) => nonnil e = true
  | Panicked => True
  end.
Proof.
  intro run. subst run. unfold createHost.
  go_deep env known_create.
  all: collected; auto.
Qed.

(** X23.  When the store fails to create the machine, [createHost] waits two
    seconds, once, and returns the error with the context "create"; the
    machine is not saved. *)
Theorem createHost_create_failure (cfg : config.MachineConfig) (hist : trace)
    (h : host.Host) (cause : err) :
  let run := events env (createHost cfg) hist in
  Obs.collect Calls.createCall run = [(h, Some cause)] ->
  result env (createHost cfg) hist = Returned (None, Some (Wrap cause "create"))
  /\ Obs.collect Calls.sleep run = [2 * Go.Second]
  /\ Obs.collect Calls.saveCall run = [].
Proof.
  intro run. subst run. unfold createHost.
  go_deep env known_create.
  all: collected; intro L; try discriminate L.
  all: injection L as <- <-; auto.
Qed.

(** X24.  When the registry has no driver of the configured name,
    [createHost] returns the unsupported-driver error with that name and
    asks the store for nothing: no host is made or created. *)
Theorem createHost_missing_driver (cfg : config.MachineConfig) (hist : trace)
    (def : registry.DriverDef) :
  let run := events env (createHost cfg) hist in
  Obs.collect Calls.registryAnswer run = [def] ->
  registry.Empty def = true ->
  result env (createHost cfg) hist
    = Returned (None, Some (New ("unsupported/missing driver: " ++ config.VMDriver cfg)))
  /\ Obs.collect Calls.newHostCall run = []
  /\ Obs.collect Calls.createCall run = [].
Proof.
  intro run. subst run. unfold createHost.
  go_deep env known_create.
  all: collected; intro L; try discriminate L.
  all: injection L as <-; try congruence; auto.
Qed.

End Creating.


(** ** Restarting an existing machine *)

Section Restarting.

Context {K : Consts}.
Variable env : Env.

Lemma acquireMachinesLock_avoids_store (name : string) :
  avoids Calls.isStoreCall (acquireMachinesLock name).
Proof. unfold acquireMachinesLock. avoid. Qed.

Lemma configureHost_avoids_store (h : host.Host) (e : engine.Options) :
  avoids Calls.isStoreCall (configureHost h e).
Proof.
  unfold configureHost, createRequiredDirectories, commandRunner,
    ensureSyncedGuestClock, guestClockDelta, adjustGuestClock.
  avoid.
Qed.


Lemma createHost_avoids_state (cfg : config.MachineConfig) :
  avoids (fun e => nonnil (Calls.stateAnswer e)) (createHost cfg).
Proof.
  unfold createHost, showHostInfo, getHostInfo, createRequiredDirectories, commandRunner,
    showLocalOsRelease, showRemoteOsRelease, ensureSyncedGuestClock, guestClockDelta,
    adjustGuestClock.
  avoid.
Qed.

Ltac known_restart q h :=
  lazymatch q with
  | acquireMachinesLock ?x =>
      generalize (no_store_call _ (avoids_run _ _ env h (acquireMachinesLock_avoids_store x)));
      unfold events, result
  | configureHost ?x ?y =>
      generalize (no_store_call _ (avoids_run _ _ env h (configureHost_avoids_store x y)));
      unfold events, result
  | createHost ?x =>
      generalize (avoided_collect Calls.stateAnswer env _ h (createHost_avoids_state x));
      unfold events, result
  | _ => idtac
  end.

(** X25.  On a machine that exists and whose state was read: if it is
    [Running], [StartHost] neither starts nor saves it; in any other state
    it starts it, once, and saves it only after a start that succeeded.  A
    start that failed is returned with the context "start". *)
Theorem StartHost_restart (cfg : config.MachineConfig) (hist : trace) (s : state.State) :
  let run := events env (StartHost cfg) hist in
  Obs.collect Calls.stateAnswer run = [(s, None)] ->
  if state.eqb s state.Running then
    Obs.collect Calls.startAnswer run = [] /\ Obs.collect Calls.saveCall run = []
  else
    match Obs.collect Calls.startAnswer run with
    | [Some cause] =>
        result env (StartHost cfg) hist = Returned (None, Some (Wrap cause "start"))
        /\ Obs.collect Calls.saveCall run = []
    | [None] => List.length (Obs.collect Calls.saveCall run) = 1%nat
    | _ => False
    end.
Proof.
  intro run. subst run. unfold StartHost.
  go_deep env known_restart.
  all: collected; intro L; try discriminate L.
  all: injection L as <-.
  all: repeat match goal with H : state.eqb _ _ = _ |- _ => rewrite H end; cbn; auto.
Qed.

End Restarting.


(** ** The address of the host as the machine sees it *)

Section Gateways.

Context {K : Consts}.
Variable env : Env.

Lemma To4_length (ip : Go.IP) (l : list Z) :
  Go.To4 ip = Some l -> List.length l = 4%nat.
Proof.
  unfold Go.To4. intro H.
  repeat match type of H with
         | match ?x with _ => _ end = _ => destruct x; try discriminate H
         end.
  all: injection H as <-; reflexivity.
Qed.

Ltac kinds D :=
  unfold strategyKinds in D;
  repeat match goal with
         | H : NoDup (_ :: _) |- _ => apply NoDup_cons_iff in H; destruct H
         end;
  cbn [In] in *.

Ltac other_kind :=
  repeat match goal with
         | |- context [(?a =? ?b)%string] =>
             replace (a =? b)%string with false
               by (symmetry; apply String.eqb_neq; intuition congruence)
         end.

(** X26.  For a VMware machine whose driver gives an address,
    [GetVMHostIP] never returns an error.  When the address reads as IPv4,
    the result is that address with the last byte replaced by 1; when it
    does not, the result is the empty address, still with no error, since
    the error that is wrapped there is nil. *)
Theorem GetVMHostIP_vmware (hist : trace) (h : host.Host) :
  let answer := env _ hist (DriverGetIP (host.Driver h)) in
  NoDup strategyKinds ->
  host.DriverName h = VMware ->
  snd answer = None ->
  exists ip,
    result env (GetVMHostIP h) hist = Returned (Some ip, None)
    /\ (Go.To4 (net_ParseIP (fst answer)) = None -> ip = [])
    /\ (forall a b c d, Go.To4 (net_ParseIP (fst answer)) = Some [a; b; c; d] ->
          ip = Go.v4InV6Prefix ++ [a; b; c; 1]).
Proof.
  intros answer D V. subst answer. kinds D.
  unfold GetVMHostIP. rewrite V. other_kind. rewrite String.eqb_refl.
  run env.
  all: cbn [fst snd]; intro E; try discriminate E.
  all: eexists; split; [reflexivity|]; split; [congruence|].
  all: intros ? ? ? ? P; try discriminate P; injection P as ->; reflexivity.
Qed.

(** X27.  [GetVMHostIP] indexes the submatches of its regular expression
    without checking that there was a match.  For a Hyper-V machine whose
    raw driver has no "VSwitch" entry it panics before any call; for a
    VirtualBox machine it panics when the output of [VBoxManage] has no
    [hostonlyadapter2] line. *)
Theorem GetVMHostIP_no_match_panics (hist : trace) (h : host.Host) :
  let path := env _ hist VBoxManagePath in
  let argv := [path; "showvminfo"; host.Name h; "--machinereadable"] in
  let answer := env _ (hist ++ [Ev VBoxManagePath path]) (ExecOutput argv) in
  NoDup strategyKinds ->
  (host.DriverName h = HyperV ->
   nth_error (FindStringSubmatch vswitchPattern (host.RawDriver h)) 1 = None ->
   exec env (GetVMHostIP h) hist = ([], Panicked))
  /\ (host.DriverName h = VirtualBox ->
      snd answer = None ->
      nth_error (FindStringSubmatch hostonlyPattern (fst answer)) 1 = None ->
      result env (GetVMHostIP h) hist = Panicked).
Proof.
  intros path argv answer D. subst path argv answer. kinds D.
  unfold GetVMHostIP, vswitchPattern, hostonlyPattern, index. split.
  - intros V N. rewrite V. other_kind. rewrite String.eqb_refl. rewrite N. reflexivity.
  - intros V. rewrite V. other_kind. rewrite String.eqb_refl.
    run env.
    all: cbn [fst snd]; intros E N; try discriminate E; try reflexivity.
    all: rewrite N in *; discriminate.
Qed.

(** X28.  [firstIPv4], the loop of [getIPForInterface]: the address found is
    four bytes long and is the IPv4 form of the first [IPNet] among the
    addresses that has one; none is found only when no [IPNet] has one.
    Addresses of another dynamic type are passed over. *)
Theorem firstIPv4_first (addrs : list net.Addr) :
  match firstIPv4 addrs with
  | Some ip =>
      List.length ip = 4%nat
      /\ exists pre a mask post,
           addrs = pre ++ net.IPNet a mask :: post
           /\ Go.To4 a = Some ip
           /\ firstIPv4 pre = None
  | None => forall a mask, In (net.IPNet a mask) addrs -> Go.To4 a = None
  end.
Proof.
  induction addrs as [|x rest IH]; cbn [firstIPv4].
  - intros a mask [].
  - destruct x as [a mask|a].
    + destruct (Go.To4 a) as [ip|] eqn:E.
      * split; [exact (To4_length _ _ E)|].
        exists [], a, mask, rest. auto.
      * destruct (firstIPv4 rest) as [ip|].
        -- destruct IH as (L & pre & a' & mask' & post & -> & T & N). split; [exact L|].
           exists (net.IPNet a mask :: pre), a', mask', post.
           repeat split; auto. cbn [firstIPv4]. now rewrite E.
        -- intros a' mask' [I|I]; [now inversion I; subst|eauto].
    + destruct (firstIPv4 rest) as [ip|].
      * destruct IH as (L & pre & a' & mask' & post & -> & T & N). split; [exact L|].
        exists (net.IPAddr a :: pre), a', mask', post. repeat split; auto.
      * intros a' mask' [I|I]; [discriminate I|eauto].
Qed.

End Gateways.

(** ** The local machine *)

Section LocalMachine.

Context {K : Consts}.
Variable env : Env.


(** X30.  [showHostInfo] never panics, although it dereferences the
    information without a nil check: [getHostInfo] gives either an error or
    the information.  The local machine is probed exactly for the
    bare-metal and the container kinds. *)
Theorem showHostInfo_returns (cfg : config.MachineConfig) (hist : trace) :
  let run := events env (showHostInfo cfg) hist in
  result env (showHostInfo cfg) hist = Returned tt
  /\ (Obs.collect Calls.probe run = []
      <-> BareMetal (config.VMDriver cfg) || IsKIC (config.VMDriver cfg) = false).
Proof.
  unfold showHostInfo, getHostInfo. run env.
  all: cbn; repeat match goal with H : _ = _ |- _ => rewrite H end; cbn.
  all: try (destruct a; try destruct a0; try destruct a1; try destruct a2).
  all: split; [reflexivity|]; split; intro; first [discriminate | reflexivity].
Qed.

End LocalMachine.


(** ** The further properties on sample runs *)

Lemma GetHostDriverIP_kic_witness :
  let env := SampleX.ofKind "docker" (Sample.world Sample.inSync) in
  let quote := fun s : string => (Go.dq ++ s ++ Go.dq)%string in
  let h := Sample.machine "minikube" "docker" in
  let run := events env (GetHostDriverIP "127.0.0.1" quote "minikube") [] in
  Obs.collect Calls.loadAnswer run = [(Some h, None)]
  /\ IsKIC (host.DriverName h) = true
  /\ Obs.collect Calls.ipAnswer run = [("192.168.99.100", None)]
  /\ result env (GetHostDriverIP "127.0.0.1" quote "minikube") []
       = Returned (Go.IPv4 127 0 0 1, None).
Proof.
  intros env quote h run.
  assert (L : Obs.collect Calls.loadAnswer run = [(Some h, None)]) by (vm_compute; reflexivity).
  assert (C : IsKIC (host.DriverName h) = true) by reflexivity.
  assert (A : Obs.collect Calls.ipAnswer run = [("192.168.99.100", None)])
    by (vm_compute; reflexivity).
  split; [exact L|]. split; [exact C|]. split; [exact A|].
  pose proof (GetHostDriverIP_kic env "127.0.0.1" quote "minikube" [] h L C) as P.
  fold run in P. rewrite A in P. exact P.
Defined.

Lemma configureHost_local_driver_witness :
  let env := Sample.world Sample.inSync in
  let h := Sample.machine "minikube" "none" in
  let e := engineOptions (Sample.cfg "none" ["HTTP_PROXY=http://proxy:3128"]) in
  BareMetal (drivers.DriverName (host.Driver h)) = true
  /\ Obs.collect Calls.authAnswer (events env (configureHost h e) []) = []
  /\ Obs.collect Obs.sshCommand (events env (configureHost h e) []) = [].
Proof.
  intros env h e.
  assert (B : BareMetal (drivers.DriverName (host.Driver h)) = true) by reflexivity.
  split; [exact B|].
  exact (configureHost_local_driver env h e [] B).
Defined.


Lemma createHost_create_failure_witness :
  let env := SampleX.createFails (Sample.world Sample.inSync) in
  let cfg := Sample.cfg "virtualbox" [] in
  let h := set_HostOptions (Sample.machine "minikube" "virtualbox") cfg in
  let cause := Opaque "creating machine: VBoxManage failed" in
  Obs.collect Calls.createCall (events env (createHost cfg) []) = [(h, Some cause)]
  /\ result env (createHost cfg) [] = Returned (None, Some (Wrap cause "create"))
  /\ Obs.collect Calls.sleep (events env (createHost cfg) []) = [2 * Go.Second]
  /\ Obs.collect Calls.saveCall (events env (createHost cfg) []) = [].
Proof.
  intros env cfg h cause.
  assert (C : Obs.collect Calls.createCall (events env (createHost cfg) []) = [(h, Some cause)])
    by (vm_compute; reflexivity).
  split; [exact C|].
  exact (createHost_create_failure env cfg [] h cause C).
Defined.

Lemma createHost_missing_driver_witness :
  let env := SampleX.noDriver (Sample.world Sample.inSync) in
  let cfg := Sample.cfg "xhyve" [] in
  let def := {| registry.Empty := true; registry.Config := fun _ => "" |} in
  Obs.collect Calls.registryAnswer (events env (createHost cfg) []) = [def]
  /\ result env (createHost cfg) []
       = Returned (None, Some (New "unsupported/missing driver: xhyve"))
  /\ Obs.collect Calls.newHostCall (events env (createHost cfg) []) = []
  /\ Obs.collect Calls.createCall (events env (createHost cfg) []) = [].
Proof.
  intros env cfg def.
  assert (R : Obs.collect Calls.registryAnswer (events env (createHost cfg) []) = [def])
    by (vm_compute; reflexivity).
  split; [exact R|].
  exact (createHost_missing_driver env cfg [] def R eq_refl).
Defined.

Lemma StartHost_restart_witness :
  let env := SampleX.startFails (SampleX.stopped (Sample.world Sample.inSync)) in
  let cfg := Sample.cfg "virtualbox" [] in
  let cause := Opaque "VT-x is not available" in
  Obs.collect Calls.stateAnswer (events env (StartHost cfg) []) = [(state.Stopped, None)]
  /\ Obs.collect Calls.startAnswer (events env (StartHost cfg) []) = [Some cause]
  /\ result env (StartHost cfg) [] = Returned (None, Some (Wrap cause "start"))
  /\ Obs.collect Calls.saveCall (events env (StartHost cfg) []) = [].
Proof.
  intros env cfg cause.
  assert (S : Obs.collect Calls.stateAnswer (events env (StartHost cfg) [])
              = [(state.Stopped, None)]) by (vm_compute; reflexivity).
  assert (A : Obs.collect Calls.startAnswer (events env (StartHost cfg) []) = [Some cause])
    by (vm_compute; reflexivity).
  split; [exact S|]. split; [exact A|].
  pose proof (StartHost_restart env cfg [] state.Stopped S) as P.
  cbv beta iota zeta delta [state.eqb] in P. rewrite A in P. exact P.
Defined.

Lemma GetVMHostIP_vmware_witness :
  let env := Sample.world Sample.inSync in
  let h := Sample.machine "minikube" "vmware" in
  NoDup strategyKinds
  /\ host.DriverName h = VMware
  /\ snd (env _ [] (DriverGetIP (host.Driver h))) = None
  /\ exists ip,
       result env (GetVMHostIP h) [] = Returned (Some ip, None)
       /\ (Go.To4 (net_ParseIP "192.168.99.100") = None -> ip = [])
       /\ (forall a b c d, Go.To4 (net_ParseIP "192.168.99.100") = Some [a; b; c; d] ->
             ip = Go.v4InV6Prefix ++ [a; b; c; 1]).
Proof.
  intros env h.
  assert (D : NoDup strategyKinds).
  { unfold strategyKinds. repeat constructor; cbn; intuition discriminate. }
  split; [exact D|]. split; [reflexivity|]. split; [reflexivity|].
  exact (GetVMHostIP_vmware env [] h D eq_refl eq_refl).
Defined.

Lemma GetVMHostIP_no_match_panics_witness :
  let env := Sample.world Sample.inSync in
  let h := Sample.machine "minikube" "hyperv" in
  NoDup strategyKinds
  /\ host.DriverName h = HyperV
  /\ nth_error (FindStringSubmatch vswitchPattern (host.RawDriver h)) 1 = None
  /\ exec env (GetVMHostIP h) [] = ([], Panicked).
Proof.
  intros env h.
  assert (D : NoDup strategyKinds).
  { unfold strategyKinds. repeat constructor; cbn; intuition discriminate. }
  split; [exact D|]. split; [reflexivity|]. split; [reflexivity|].
  exact (proj1 (GetVMHostIP_no_match_panics env [] h D) eq_refl eq_refl).
Defined.

